(** * Pairwise ranking optimizer: training loop, batching and checkpoints

    A shallow embedding of
    [link_prediction/optimization/pairwise_ranking_optimizer.py]
    (classes [PairwiseRankingOptimizer] and
    [KelpiePairwiseRankingOptimizer]) and the properties of its control
    flow: which batches an epoch builds, in which order the collaborators
    are called, when checkpoints are written, and which numpy arrays are
    touched.

    The embedding model, the dataset, the corruption engine, the
    regularizer, the evaluator, numpy's random generator and torch are
    external to the file; they enter as one record of operations
    ([Collaborators]).  Progress output ([print], [tqdm]) is left out. *)

From Stdlib Require Import ZArith Lia.
From stdpp Require Import base option list gmap strings.

(** ** Python values and built-ins *)

(** A sample is a row (head, relation, tail) of an integer array; a numpy
    array of samples is the list of its rows.  Arrays live in a store and
    are handed around by reference ([loc]). *)
Definition sample : Type := Z * Z * Z.
Abbreviation ndarray := (list sample).
Abbreviation loc := positive.

(** The numbers a hyperparameter dictionary holds. *)
Inductive pyval (F : Type) : Type :=
  | PInt (z : Z)
  | PFloat (x : F).
Arguments PInt {F} z.
Arguments PFloat {F} x.

Inductive exn : Type :=
  | KeyError (key : string)
  | TypeError.

Module Py.

Definition len {A} (l : list A) : Z := Z.of_nat (length l).

(** A slice bound as Python reads it: a negative bound counts from the
    end, and every bound is clipped to [0, len]. *)
Definition slice_bound (n i : Z) : Z :=
  if (i <? 0)%Z then Z.max 0 (i + n) else Z.min i n.

(** [l[i:j]] *)
Definition slice {A} (l : list A) (i j : Z) : list A :=
  let a := slice_bound (len l) i in
  let b := slice_bound (len l) j in
  take (Z.to_nat (b - a)) (drop (Z.to_nat a) l).

(** [range(a, b)] *)
Definition range (a b : Z) : list Z :=
  (fun k => (a + Z.of_nat k)%Z) <$> seq 0 (Z.to_nat (b - a)).

End Py.

(** ** Collaborators *)

Class Collaborators : Type := {
  (* value domains *)
  Float : Type;
  ModelState : Type;   (* self.model: parameters, gradients, mode, device *)
  OptState : Type;     (* self.optimizer: the torch optimizer's own state *)
  Rng : Type;          (* numpy's global random generator *)
  Scores : Type;
  Factors : Type;
  Tensor : Type;
  (* module model: the names of the hyperparameters *)
  BATCH_SIZE : string;
  LEARNING_RATE : string;
  EPOCHS : string;
  MARGIN : string;
  NEGATIVE_SAMPLES_RATIO : string;
  REGULARIZER_WEIGHT : string;
  (* Dataset *)
  invert_samples : ndarray -> ndarray;
  (* CorruptionEngine *)
  corrupt_samples : Rng -> ndarray -> pyval Float -> Rng * (ndarray * ndarray);
  (* numpy *)
  np_random_shuffle : Rng -> ndarray -> Rng * ndarray;
  (* Model *)
  model_cuda : ModelState -> ModelState;
  model_train : ModelState -> ModelState;
  model_eval : ModelState -> ModelState;
  model_forward : ModelState -> ndarray -> ModelState * (Scores * Factors);
  model_update_embeddings : ModelState -> ModelState;
  (* torch *)
  torch_tensor : list Z -> Tensor;
  MarginRankingLoss : pyval Float -> Scores -> Scores -> Tensor -> Tensor;
  tensor_add : Tensor -> Tensor -> Tensor;
  tensor_div : Tensor -> Z -> Tensor;
  zero_grad : ModelState -> ModelState;
  backward : Tensor -> ModelState -> ModelState;
  Adam : ModelState -> pyval Float -> OptState;
  SGD : ModelState -> pyval Float -> OptState;
  optimizer_step : OptState -> ModelState -> OptState * ModelState;
  (* L2 regularizer *)
  L2_forward : pyval Float -> Factors -> Tensor;
  (* Evaluator *)
  evaluator_eval : ModelState -> ndarray -> Float * Float * Float;
}.

(** numpy's shuffle reorders the rows of its argument. *)
Definition shuffle_permutes `{Collaborators} : Prop :=
  forall g a, (np_random_shuffle g a).2 ≡ₚ a.

(** The Dataset contract the size of the training set relies on. *)
Definition invert_keeps_rows `{Collaborators} : Prop :=
  forall a, length (invert_samples a) = length a.

(** ** The world the optimizer runs in *)

Section Optimizer.

Context {C : Collaborators}.

Abbreviation value := (pyval Float).

(** Calls that leave the optimizer, in the order they are made. *)
Inductive event : Type :=
  | EvNewCorruptionEngine
  | EvNewLoss (margin : value)
  | EvNewAdam (lr : value)
  | EvNewSGD (lr : value)
  | EvNewL2 (weight : value)
  | EvModelCuda
  | EvModelTrain
  | EvModelEval
  | EvShuffle (arr : loc)
  | EvCorrupt (original_batch : ndarray) (ratio : value)
  | EvZeroGrad
  | EvForward (batch : ndarray)
  | EvNewTensor (data : list Z)
  | EvBackward
  | EvOptimizerStep
  | EvUpdateEmbeddings
  | EvEval (samples : ndarray)
  | EvSave (path : string) (state_dict : ModelState).

Record world : Type := {
  heap : gmap loc ndarray;
  rng : Rng;
  model : ModelState;
  optim : OptState;
  trace : list event;
}.

Definition set_heap (h : gmap loc ndarray) (w : world) : world :=
  {| heap := h; rng := rng w; model := model w; optim := optim w; trace := trace w |}.
Definition set_rng (g : Rng) (w : world) : world :=
  {| heap := heap w; rng := g; model := model w; optim := optim w; trace := trace w |}.
Definition set_model (m : ModelState) (w : world) : world :=
  {| heap := heap w; rng := rng w; model := m; optim := optim w; trace := trace w |}.
Definition set_optim (o : OptState) (w : world) : world :=
  {| heap := heap w; rng := rng w; model := model w; optim := o; trace := trace w |}.
Definition log (e : event) (w : world) : world :=
  {| heap := heap w; rng := rng w; model := model w; optim := optim w;
     trace := trace w ++ [e] |}.

(** A computation either returns, raises, or is cut off by the bound on
    loop iterations; each case carries the world reached. *)
Inductive outcome (A : Type) : Type :=
  | Ok (a : A) (w : world)
  | Raise (e : exn) (w : world)
  | OutOfFuel (w : world).
#[local] Arguments Ok {A} a w.
#[local] Arguments Raise {A} e w.
#[local] Arguments OutOfFuel {A} w.

Definition M (A : Type) : Type := world -> outcome A.

Definition ret {A} (a : A) : M A := fun w => Ok a w.

Definition bind {A B} (m : M A) (k : A -> M B) : M B :=
  fun w =>
    match m w with
    | Ok a w' => k a w'
    | Raise e w' => Raise e w'
    | OutOfFuel w' => OutOfFuel w'
    end.

Definition raise {A} (e : exn) : M A := fun w => Raise e w.
Definition out_of_fuel {A} : M A := fun w => OutOfFuel w.
Definition modify (f : world -> world) : M unit := fun w => Ok tt (f w).
Definition gets {A} (f : world -> A) : M A := fun w => Ok (f w) w.

Definition final {A} (o : outcome A) : world :=
  match o with Ok _ w | Raise _ w | OutOfFuel w => w end.

End Optimizer.

Arguments Ok {C A} a w.
Arguments Raise {C A} e w.
Arguments OutOfFuel {C A} w.

Abbreviation value := (pyval Float).

Declare Scope py_scope.
Delimit Scope py_scope with py.
Notation "x <- m ;; k" := (bind m (fun x => k))
  (at level 100, m at next level, right associativity) : py_scope.
Notation "m ;; k" := (bind m (fun _ => k))
  (at level 100, right associativity) : py_scope.

#[local] Open Scope py_scope.

(** ** The optimizer *)

Section Program.

Context {C : Collaborators}.

Inductive optimizer_class : Type :=
  | PairwiseRanking
  | KelpiePairwiseRanking.

(** The attributes [__init__] sets from the hyperparameters.  The model,
    dataset, evaluator, corruption engine, loss and regularizer objects
    are the collaborators; the torch optimizer's state is [optim]. *)
Record PairwiseRankingOptimizer : Type := {
  cls : optimizer_class;
  verbose : bool;
  batch_size : value;
  learning_rate : value;
  epochs : value;
  margin : value;
  negative_samples_ratio : value;
  regularizer_weight : value;
}.

Definition emit (e : event) : M unit := modify (log e).

(** [d[k]] on a dict *)
Definition getitem (d : gmap string value) (k : string) : M value :=
  match d !! k with
  | Some v => ret v
  | None => raise (KeyError k)
  end.

(** What [range] and an [int]-annotated parameter accept. *)
Definition as_int (v : value) : M Z :=
  match v with
  | PInt z => ret z
  | PFloat _ => raise TypeError
  end.

(** The array behind a reference. *)
Definition load (l : loc) (w : world) : ndarray := default [] (heap w !! l).

(** [np.vstack((a, b))]: a new array. *)
Definition np_vstack (a b : ndarray) : M loc :=
  fun w =>
    let l := fresh (dom (heap w)) in
    Ok l (set_heap (<[l := a ++ b]> (heap w)) w).

(** [np.random.shuffle(arr)]: reorders [arr] in place. *)
Definition np_shuffle (arr : loc) : M unit :=
  fun w =>
    let '(g, a) := np_random_shuffle (rng w) (load arr w) in
    Ok tt (log (EvShuffle arr) (set_heap (<[arr := a]> (heap w)) (set_rng g w))).

(** Modelled from the spec: the base class [Optimizer] (module
    [optimizer]) is not in the source.  Its initializer binds the model,
    the dataset and the evaluator, which are the collaborators here, and
    keeps the [verbose] flag; it reads no hyperparameter. *)
Definition Optimizer_init (hyperparameters : gmap string value) (vb : bool)
  : M bool := ret vb.

Definition PairwiseRankingOptimizer_init
    (hyperparameters : gmap string value) (vb : bool)
  : M PairwiseRankingOptimizer :=
  vb <- Optimizer_init hyperparameters vb ;;
  bs <- getitem hyperparameters BATCH_SIZE ;;
  lr <- getitem hyperparameters LEARNING_RATE ;;
  ep <- getitem hyperparameters EPOCHS ;;
  mg <- getitem hyperparameters MARGIN ;;
  nr <- getitem hyperparameters NEGATIVE_SAMPLES_RATIO ;;
  rw <- getitem hyperparameters REGULARIZER_WEIGHT ;;
  emit EvNewCorruptionEngine ;;
  emit (EvNewLoss mg) ;;
  m <- gets model ;;
  modify (set_optim (Adam m lr)) ;;
  emit (EvNewAdam lr) ;;
  emit (EvNewL2 rw) ;;
  ret {| cls := PairwiseRanking; verbose := vb; batch_size := bs;
         learning_rate := lr; epochs := ep; margin := mg;
         negative_samples_ratio := nr; regularizer_weight := rw |}.

Definition KelpiePairwiseRankingOptimizer_init
    (hyperparameters : gmap string value) (vb : bool)
  : M PairwiseRankingOptimizer :=
  self <- PairwiseRankingOptimizer_init hyperparameters vb ;;
  lr <- getitem hyperparameters LEARNING_RATE ;;
  m <- gets model ;;
  modify (set_optim (SGD m lr)) ;;
  emit (EvNewSGD lr) ;;
  ret {| cls := KelpiePairwiseRanking; verbose := verbose self;
         batch_size := batch_size self; learning_rate := learning_rate self;
         epochs := epochs self; margin := margin self;
         negative_samples_ratio := negative_samples_ratio self;
         regularizer_weight := regularizer_weight self |}.

Definition extract_batch (self : PairwiseRankingOptimizer)
    (training_samples : loc) (batch_start batch_size : Z)
  : M (ndarray * ndarray) :=
  a <- gets (load training_samples) ;;
  let original_batch :=
    Py.slice a batch_start (Z.min (batch_start + batch_size) (Py.len a)) in
  g <- gets rng ;;
  let r := corrupt_samples g original_batch (negative_samples_ratio self) in
  modify (set_rng r.1) ;;
  emit (EvCorrupt original_batch (negative_samples_ratio self)) ;;
  ret r.2.

(** The constant [step_on_batch] builds its target from. *)
Definition target_data : list Z := [(-1)%Z].

Definition forward (batch : ndarray) : M (Scores * Factors) :=
  m <- gets model ;;
  let r := model_forward m batch in
  modify (set_model r.1) ;;
  emit (EvForward batch) ;;
  ret r.2.

Definition step_on_batch (self : PairwiseRankingOptimizer)
    (positive_batch negative_batch : ndarray) : M Tensor :=
  modify (fun w => set_model (zero_grad (model w)) w) ;;
  emit EvZeroGrad ;;
  pos <- forward positive_batch ;;
  neg <- forward negative_batch ;;
  let target := torch_tensor target_data in
  emit (EvNewTensor target_data) ;;
  let l_fit := MarginRankingLoss (margin self) pos.1 neg.1 target in
  let l_reg :=
    tensor_div (tensor_add (L2_forward (regularizer_weight self) pos.2)
                           (L2_forward (regularizer_weight self) neg.2)) 2 in
  let loss := tensor_add l_fit l_reg in
  modify (fun w => set_model (backward loss (model w)) w) ;;
  emit EvBackward ;;
  modify (fun w =>
    let r := optimizer_step (optim w) (model w) in
    set_model r.2 (set_optim r.1 w)) ;;
  emit EvOptimizerStep ;;
  ret loss.

(** The [while] loop of [PairwiseRankingOptimizer.epoch]; [fuel] bounds
    the number of times its condition is tested. *)
Fixpoint epoch_while (fuel : nat) (self : PairwiseRankingOptimizer)
    (training_samples : loc) (batch_size batch_start : Z) : M unit :=
  match fuel with
  | O => out_of_fuel
  | S fuel' =>
    a <- gets (load training_samples) ;;
    if (batch_start <? Py.len a)%Z then
      b <- extract_batch self training_samples batch_start batch_size ;;
      l <- step_on_batch self b.1 b.2 ;;
      epoch_while fuel' self training_samples batch_size (batch_start + batch_size)
    else ret tt
  end.

Definition PairwiseRankingOptimizer_epoch (fuel : nat)
    (self : PairwiseRankingOptimizer) (batch_size : Z) (training_samples : loc)
  : M unit :=
  np_shuffle training_samples ;;
  modify (fun w => set_model (model_train (model w)) w) ;;
  emit EvModelTrain ;;
  epoch_while fuel self training_samples batch_size 0.

(** The [while] loop of [KelpiePairwiseRankingOptimizer.epoch]. *)
Fixpoint kelpie_epoch_while (fuel : nat) (self : PairwiseRankingOptimizer)
    (training_samples : loc) (batch_size batch_start : Z) : M unit :=
  match fuel with
  | O => out_of_fuel
  | S fuel' =>
    a <- gets (load training_samples) ;;
    if (batch_start <? Py.len a)%Z then
      b <- extract_batch self training_samples batch_start batch_size ;;
      l <- step_on_batch self b.1 b.2 ;;
      modify (fun w => set_model (model_update_embeddings (model w)) w) ;;
      emit EvUpdateEmbeddings ;;
      kelpie_epoch_while fuel' self training_samples batch_size
                         (batch_start + batch_size)
    else ret tt
  end.

Definition KelpiePairwiseRankingOptimizer_epoch (fuel : nat)
    (self : PairwiseRankingOptimizer) (batch_size : Z) (training_samples : loc)
  : M unit :=
  np_shuffle training_samples ;;
  modify (fun w => set_model (model_train (model w)) w) ;;
  emit EvModelTrain ;;
  kelpie_epoch_while fuel self training_samples batch_size 0.

(** [self.epoch(...)]: the method of the object's class. *)
Definition epoch (fuel : nat) (self : PairwiseRankingOptimizer)
    (batch_size : Z) (training_samples : loc) : M unit :=
  match cls self with
  | PairwiseRanking =>
      PairwiseRankingOptimizer_epoch fuel self batch_size training_samples
  | KelpiePairwiseRanking =>
      KelpiePairwiseRankingOptimizer_epoch fuel self batch_size training_samples
  end.

(** [for x in xs: body(x)] *)
Fixpoint for_each {A} (xs : list A) (body : A -> M unit) : M unit :=
  match xs with
  | [] => ret tt
  | x :: xs' => body x ;; for_each xs' body
  end.

(** [torch.save(self.model.state_dict(), save_path)] *)
Definition save_model (save_path : string) : M unit :=
  m <- gets model ;;
  emit (EvSave save_path m).

(** The validation branch of [train]. *)
Definition validate (save_path : option string) (valid_samples : option loc)
  : M unit :=
  modify (fun w => set_model (model_eval (model w)) w) ;;
  emit EvModelEval ;;
  v <- gets (fun w => from_option (fun l => load l w) [] valid_samples) ;;
  m <- gets model ;;
  let metrics := evaluator_eval m v in
  emit (EvEval v) ;;
  match save_path with
  | Some p => save_model p
  | None => ret tt
  end.

(** [train]: [epoch]'s parameter [batch_size] is annotated [int], so the
    hyperparameter is read as one at the call. *)
Definition train (fuel : nat) (self : PairwiseRankingOptimizer)
    (train_samples : loc) (save_path : option string)
    (evaluate_every : Z) (valid_samples : option loc) : M unit :=
  a <- gets (load train_samples) ;;
  training_samples <- np_vstack a (invert_samples a) ;;
  modify (fun w => set_model (model_cuda (model w)) w) ;;
  emit EvModelCuda ;;
  n <- as_int (epochs self) ;;
  for_each (Py.range 1 (n + 1)) (fun e =>
    bs <- as_int (batch_size self) ;;
    epoch fuel self bs training_samples ;;
    if (0 <? evaluate_every)%Z && bool_decide (valid_samples <> None)
       && (e mod evaluate_every =? 0)%Z
    then validate save_path valid_samples
    else ret tt) ;;
  match save_path with
  | Some p => save_model p
  | None => ret tt
  end.

End Program.

(** ** A recording stub of the collaborators *)

Module Stub.

Definition invert (s : sample) : sample :=
  let '(h, r, t) := s in (t, (r + 1000)%Z, h).

Definition corrupt (s : sample) : sample :=
  let '(h, r, t) := s in (h, r, (t + 1)%Z).

(** Floats are stood for by integers, the model state counts the
    parameter updates, the generator counts its draws, and shuffling
    reverses the rows. *)
Definition collaborators : Collaborators := {|
  Float := Z;
  ModelState := nat;
  OptState := nat;
  Rng := nat;
  Scores := Z;
  Factors := Z;
  Tensor := Z;
  BATCH_SIZE := "batch_size";
  LEARNING_RATE := "learning_rate";
  EPOCHS := "epochs";
  MARGIN := "margin";
  NEGATIVE_SAMPLES_RATIO := "negative_samples";
  REGULARIZER_WEIGHT := "regularizer_weight";
  invert_samples := fmap invert;
  corrupt_samples := fun g a _ => (S g, (a, corrupt <$> a));
  np_random_shuffle := fun g a => (S g, reverse a);
  model_cuda := id;
  model_train := id;
  model_eval := id;
  model_forward := fun m a => (m, (Py.len a, (2 * Py.len a)%Z));
  model_update_embeddings := id;
  torch_tensor := fun l => foldr Z.add 0%Z l;
  MarginRankingLoss := fun _ p n t => Z.max 0 (t * (n - p) + 1)%Z;
  tensor_add := Z.add;
  tensor_div := Z.div;
  zero_grad := id;
  backward := fun _ m => m;
  Adam := fun _ _ => 0;
  SGD := fun _ _ => 0;
  optimizer_step := fun o m => (S o, S m);
  L2_forward := fun _ f => f;
  evaluator_eval := fun _ _ => (0%Z, 0%Z, 0%Z);
|}.

#[local] Existing Instance collaborators.

Definition hyperparameters : gmap string value :=
  list_to_map [("batch_size", PInt 2); ("learning_rate", PFloat 1%Z);
               ("epochs", PInt 5); ("margin", PFloat 2%Z);
               ("negative_samples", PInt 1); ("regularizer_weight", PFloat 0%Z)].

Definition samples : ndarray := [(1, 0, 2); (2, 0, 3); (3, 1, 1)]%Z.

Definition world0 : world :=
  {| heap := {[ 1%positive := samples ]}; rng := 0; model := 0; optim := 0;
     trace := [] |}.

Definition self : PairwiseRankingOptimizer :=
  {| cls := PairwiseRanking; verbose := true; batch_size := PInt 2;
     learning_rate := PFloat 1%Z; epochs := PInt 5; margin := PFloat 2%Z;
     negative_samples_ratio := PInt 1; regularizer_weight := PFloat 0%Z |}.

(** The hyperparameters without the margin. *)
Definition incomplete : gmap string value := delete "margin" hyperparameters.

(** A hundred samples, and the optimizer with batches of 32 for one epoch. *)
Definition samples100 : ndarray :=
  (fun i => (Z.of_nat i, 0%Z, (Z.of_nat i + 1)%Z)) <$> seq 0 100.

Definition world100 : world :=
  {| heap := {[ 1%positive := samples100 ]}; rng := 0; model := 0; optim := 0;
     trace := [] |}.

Definition self32 : PairwiseRankingOptimizer :=
  {| cls := PairwiseRanking; verbose := true; batch_size := PInt 32;
     learning_rate := PFloat 1%Z; epochs := PInt 1; margin := PFloat 2%Z;
     negative_samples_ratio := PInt 1; regularizer_weight := PFloat 0%Z |}.

(** The optimizer of the Kelpie class, one with a float for the epoch
    count, and one with an empty batch. *)
Definition kelpie : PairwiseRankingOptimizer :=
  {| cls := KelpiePairwiseRanking; verbose := true; batch_size := PInt 2;
     learning_rate := PFloat 1%Z; epochs := PInt 1; margin := PFloat 2%Z;
     negative_samples_ratio := PInt 1; regularizer_weight := PFloat 0%Z |}.

Definition float_epochs : PairwiseRankingOptimizer :=
  {| cls := PairwiseRanking; verbose := true; batch_size := PInt 2;
     learning_rate := PFloat 1%Z; epochs := PFloat 5%Z; margin := PFloat 2%Z;
     negative_samples_ratio := PInt 1; regularizer_weight := PFloat 0%Z |}.

Definition empty_batches : PairwiseRankingOptimizer :=
  {| cls := PairwiseRanking; verbose := true; batch_size := PInt 0;
     learning_rate := PFloat 1%Z; epochs := PInt 1; margin := PFloat 2%Z;
     negative_samples_ratio := PInt 1; regularizer_weight := PFloat 0%Z |}.

(** The optimizer asked for no epoch at all, and a caller without samples. *)
Definition no_epochs : PairwiseRankingOptimizer :=
  {| cls := PairwiseRanking; verbose := true; batch_size := PInt 2;
     learning_rate := PFloat 1%Z; epochs := PInt 0; margin := PFloat 2%Z;
     negative_samples_ratio := PInt 1; regularizer_weight := PFloat 0%Z |}.

Definition world_empty : world :=
  {| heap := {[ 1%positive := [] ]}; rng := 0; model := 0; optim := 0;
     trace := [] |}.

End Stub.

(** ** Reading a run: traces, batches and segments *)

Section Model.

Context {C : Collaborators}.
Implicit Types (self : PairwiseRankingOptimizer) (w : world).

(** The data of the tensors built by [torch.tensor]. *)
Definition tensors_built (t : list event) : list (list Z) :=
  omap (fun e => match e with EvNewTensor d => Some d | _ => None end) t.

(** The slices handed to the corruption engine. *)
Definition corrupted_batches (t : list event) : list ndarray :=
  omap (fun e => match e with EvCorrupt o _ => Some o | _ => None end) t.

(** The checkpoints written: path and parameters. *)
Definition checkpoints (t : list event) : list (string * ModelState) :=
  omap (fun e => match e with EvSave p m => Some (p, m) | _ => None end) t.

(** The sample sets the evaluator was run on. *)
Definition evaluations (t : list event) : list ndarray :=
  omap (fun e => match e with EvEval v => Some v | _ => None end) t.

Definition is_optimizer_step (e : event) : bool :=
  match e with EvOptimizerStep => true | _ => false end.

Definition is_update_embeddings (e : event) : bool :=
  match e with EvUpdateEmbeddings => true | _ => false end.

Definition is_model_train (e : event) : bool :=
  match e with EvModelTrain => true | _ => false end.

Fixpoint count (p : event -> bool) (t : list event) : nat :=
  match t with
  | [] => 0
  | e :: t' => (if p e then 1 else 0) + count p t'
  end.

(** The hyperparameters [__init__] looks up. *)
Definition required_keys : list string :=
  [BATCH_SIZE; LEARNING_RATE; EPOCHS; MARGIN; NEGATIVE_SAMPLES_RATIO;
   REGULARIZER_WEIGHT].

(** The reading of the target label as an attribute set by [__init__]:
    construction builds the one target tensor and a step builds none. *)
Definition target_fixed_at_construction
    (hyperparameters : gmap string value) (vb : bool) (w : world)
    (positive_batch negative_batch : ndarray) : Prop :=
  match PairwiseRankingOptimizer_init hyperparameters vb w with
  | Ok self w1 =>
      tensors_built (trace w1) = tensors_built (trace w) ++ [target_data]
      /\ tensors_built
           (trace (final (step_on_batch self positive_batch negative_batch w1)))
         = tensors_built (trace w1)
  | _ => False
  end.

(** [w'] is reached from [w] by logging events that satisfy [P], leaving
    every array but [l] as it was and the rows of [l] reordered. *)
Definition reaches P (l : loc) w w' : Prop :=
  (exists d, trace w' = trace w ++ d /\ Forall P d)
  /\ (forall l', l' <> l -> heap w' !! l' = heap w !! l')
  /\ (shuffle_permutes -> load l w' ≡ₚ load l w).

Definition always P (l : loc) {A} (m : M A) : Prop :=
  forall w, reaches P l w (final (m w)).

(** The events of one epoch over the array [l]. *)
Definition epoch_event (l : loc) (e : event) : Prop :=
  match e with
  | EvShuffle l' => l' = l
  | EvModelTrain | EvCorrupt _ _ | EvZeroGrad | EvForward _ | EvNewTensor _
  | EvBackward | EvOptimizerStep | EvUpdateEmbeddings => True
  | _ => False
  end.

(** Whether validation is due after epoch [e]. *)
Definition due (evaluate_every : Z) (valid_samples : option loc) (e : Z) : bool :=
  (0 <? evaluate_every)%Z && bool_decide (valid_samples <> None)
  && (e mod evaluate_every =? 0)%Z.

(** The body of the [for] loop of [train]. *)
Definition epoch_and_validate (fuel : nat) self (training_samples : loc)
    (save_path : option string) (evaluate_every : Z)
    (valid_samples : option loc) (e : Z) : M unit :=
  (bs <- as_int (batch_size self) ;;
   epoch fuel self bs training_samples ;;
   if due evaluate_every valid_samples e
   then validate save_path valid_samples
   else ret tt)%py.

(** [train] from the point where the training set [training_samples] is
    built. *)
Definition train_rest (fuel : nat) self (training_samples : loc)
    (save_path : option string) (evaluate_every : Z)
    (valid_samples : option loc) : M unit :=
  (modify (fun w => set_model (model_cuda (model w)) w) ;;
   emit EvModelCuda ;;
   n <- as_int (epochs self) ;;
   for_each (Py.range 1 (n + 1))
     (epoch_and_validate fuel self training_samples save_path evaluate_every
                         valid_samples) ;;
   match save_path with
   | Some p => save_model p
   | None => ret tt
   end)%py.

Definition not_validation (e : event) : Prop :=
  match e with
  | EvEval _ | EvModelEval => False
  | _ => True
  end.

Definition shuffles_only (l : loc) (e : event) : Prop :=
  match e with
  | EvShuffle l' => l' = l
  | _ => True
  end.

(** [ceil(n / b)] *)
Definition num_batches (n b : Z) : nat := Z.to_nat ((n + b - 1) / b).

(** The first [k] slices of [a] of width [b] from row [start] on. *)
Fixpoint chunks (k : nat) (a : ndarray) (b start : Z) : list ndarray :=
  match k with
  | O => []
  | S k' =>
      Py.slice a start (Z.min (start + b) (Py.len a)) :: chunks k' a b (start + b)
  end.

(** The events of one batch: the slice, and the batches the corruption
    engine made of it; [sync] adds the Kelpie hook. *)
Definition batch_events self (sync : bool) (x : ndarray * (ndarray * ndarray))
  : list event :=
  [EvCorrupt x.1 (negative_samples_ratio self); EvZeroGrad; EvForward x.2.1;
   EvForward x.2.2; EvNewTensor target_data; EvBackward; EvOptimizerStep]
  ++ (if sync then [EvUpdateEmbeddings] else []).

Definition is_kelpie self : bool :=
  match cls self with
  | PairwiseRanking => false
  | KelpiePairwiseRanking => true
  end.

(** Both [while] loops at once. *)
Fixpoint while_with (sync : bool) (fuel : nat) self (training_samples : loc)
    (batch_size batch_start : Z) : M unit :=
  match fuel with
  | O => out_of_fuel
  | S fuel' =>
    a <- gets (load training_samples) ;;
    if (batch_start <? Py.len a)%Z then
      b <- extract_batch self training_samples batch_start batch_size ;;
      l <- step_on_batch self b.1 b.2 ;;
      (if sync
       then modify (fun w => set_model (model_update_embeddings (model w)) w) ;;
            emit EvUpdateEmbeddings
       else ret tt) ;;
      while_with sync fuel' self training_samples batch_size
                 (batch_start + batch_size)
    else ret tt
  end.

(** One turn of the loop: the slice taken at [start], what the corruption
    engine makes of it, and the world after the step (and the hook). *)
Definition batch_at self (l : loc) (b start : Z) w
  : ndarray * (ndarray * ndarray) :=
  let o := Py.slice (load l w) start (Z.min (start + b) (Py.len (load l w))) in
  (o, (corrupt_samples (rng w) o (negative_samples_ratio self)).2).

(** The Kelpie hook after a step. *)
Definition sync_embeddings (sync : bool) : M unit :=
  if sync
  then modify (fun w => set_model (model_update_embeddings (model w)) w) ;;
       emit EvUpdateEmbeddings
  else ret tt.

Definition after_batch (sync : bool) self (l : loc) (b start : Z) w : world :=
  final (bind (extract_batch self l start b) (fun x =>
         bind (step_on_batch self x.1 x.2) (fun _ => sync_embeddings sync)) w).

(** The [epoch] method of either class. *)
Definition class_epoch (sync : bool) :=
  if sync then KelpiePairwiseRankingOptimizer_epoch
  else PairwiseRankingOptimizer_epoch.

(** The world in which the [while] loop of an epoch starts. *)
Definition epoch_start (l : loc) w : world :=
  let r := np_random_shuffle (rng w) (load l w) in
  log EvModelTrain
    (set_model (model_train (model w))
       (log (EvShuffle l) (set_heap (<[l := r.2]> (heap w)) (set_rng r.1 w)))).

(** The events of one epoch over the array [l], whose rows are those of
    [a0] in some order, cut into batches of [b] rows. *)
Definition epoch_segment self (l : loc) (b : Z) (a0 : ndarray) (E : list event)
  : Prop :=
  exists (a : ndarray) (bs : list (ndarray * (ndarray * ndarray))),
    a ≡ₚ a0
    /\ bs.*1 = chunks (num_batches (Py.len a) b) a b 0
    /\ E = [EvShuffle l; EvModelTrain]
           ++ flat_map (batch_events self (is_kelpie self)) bs.

(** The events of one validation. *)
Definition validation_events (save_path : option string) (v : ndarray)
    (m : ModelState) : list event :=
  [EvModelEval; EvEval v]
  ++ match save_path with Some p => [EvSave p m] | None => [] end.

(** The events of epoch [e] of a run: the epoch, then the validation if
    it is due. *)
Definition run_segment self (l : loc) (b : Z) (a0 : ndarray)
    (save_path : option string) (evaluate_every : Z)
    (valid_samples : option loc) (e : Z) (seg : list event) : Prop :=
  exists E v m,
    epoch_segment self l b a0 E
    /\ seg = E ++ (if due evaluate_every valid_samples e
                   then validation_events save_path v m else []).

(** The checkpoint written when [train] ends. *)
Definition final_save (save_path : option string) (m : ModelState) : list event :=
  match save_path with Some p => [EvSave p m] | None => [] end.

(** The number of epochs among [es] after which validation is due. *)
Fixpoint validations (evaluate_every : Z) (valid_samples : option loc)
    (es : list Z) : nat :=
  match es with
  | [] => 0
  | e :: es' =>
      (if due evaluate_every valid_samples e then 1 else 0)
      + validations evaluate_every valid_samples es'
  end.

(** The mode the calls of [t] leave the model in, [true] for training. *)
Fixpoint mode_after (training : bool) (t : list event) : bool :=
  match t with
  | [] => training
  | EvModelTrain :: t' => mode_after true t'
  | EvModelEval :: t' => mode_after false t'
  | _ :: t' => mode_after training t'
  end.

(** Every forward pass of [t] is made in training mode and every run of
    the evaluator in evaluation mode. *)
Fixpoint well_moded (training : bool) (t : list event) : bool :=
  match t with
  | [] => true
  | EvModelTrain :: t' => well_moded true t'
  | EvModelEval :: t' => well_moded false t'
  | EvForward _ :: t' => training && well_moded training t'
  | EvEval _ :: t' => negb training && well_moded training t'
  | _ :: t' => well_moded training t'
  end.

Definition is_forward (e : event) : bool :=
  match e with EvForward _ => true | _ => false end.

End Model.

(** ** Python slices *)

Section Slices.

Context {A : Type}.
Implicit Types l : list A.

Lemma slice_in_range l (i j : Z) :
  (0 <= i <= j)%Z -> (j <= Py.len l)%Z ->
  Py.slice l i j = take (Z.to_nat (j - i)) (drop (Z.to_nat i) l).
Proof.
  intros Hij Hj. unfold Py.slice, Py.slice_bound.
  destruct (Z.ltb_spec i 0); [lia|].
  destruct (Z.ltb_spec j 0); [lia|].
  rewrite !Z.min_l by lia. reflexivity.
Qed.

Lemma slice_length l (i j : Z) :
  (0 <= i <= j)%Z -> (j <= Py.len l)%Z ->
  length (Py.slice l i j) = Z.to_nat (j - i).
Proof.
  intros Hij Hj. rewrite slice_in_range by assumption.
  rewrite length_take, length_drop. unfold Py.len in Hj. lia.
Qed.

Lemma slice_lookup l (i j : Z) (k : nat) :
  (0 <= i <= j)%Z -> (j <= Py.len l)%Z -> k < Z.to_nat (j - i) ->
  Py.slice l i j !! k = l !! (Z.to_nat i + k).
Proof.
  intros Hij Hj Hk. rewrite slice_in_range by assumption.
  rewrite lookup_take_lt by assumption. apply lookup_drop.
Qed.

End Slices.

(** ** Reading a trace *)

Section Traces.

Context {C : Collaborators}.

Lemma count_app p t1 t2 : count p (t1 ++ t2) = count p t1 + count p t2.
Proof. induction t1 as [|e t1 IH]; simpl; [reflexivity|]. rewrite IH. lia. Qed.

End Traces.

(** Running straight-line monadic code symbolically. *)
Ltac run :=
  cbv beta iota zeta delta
    [bind ret raise out_of_fuel modify gets emit forward getitem as_int
     save_model np_vstack np_shuffle final
     log set_heap set_rng set_model set_optim heap rng model optim trace].

(** ** Batch extraction, the step and the initializer *)

Section Step.

Context {C : Collaborators}.
Implicit Types (self : PairwiseRankingOptimizer) (w : world).

(** C6: for [0 <= batch_start < len(training_samples)] and
    [batch_size >= 1], [extract_batch] hands the corruption engine exactly
    the rows [batch_start .. min(batch_start+batch_size, len) - 1] of the
    array: row [k] of the slice is row [batch_start + k] of the array, the
    slice has [min(batch_size, len - batch_start)] rows, so at most
    [batch_size], and a short last batch stays short. *)
Theorem extract_batch_slice self (training_samples : loc)
    (batch_start batch_size : Z) w :
  let a := load training_samples w in
  (0 <= batch_start < Py.len a)%Z ->
  (1 <= batch_size)%Z ->
  exists original_batch,
    let r := corrupt_samples (rng w) original_batch (negative_samples_ratio self) in
    extract_batch self training_samples batch_start batch_size w
      = Ok r.2 (log (EvCorrupt original_batch (negative_samples_ratio self))
                    (set_rng r.1 w))
    /\ original_batch
       = take (Z.to_nat (Z.min (batch_start + batch_size) (Py.len a) - batch_start))
              (drop (Z.to_nat batch_start) a)
    /\ (forall k : nat,
          (Z.of_nat k < Z.min batch_size (Py.len a - batch_start))%Z ->
          original_batch !! k = a !! (Z.to_nat batch_start + k))
    /\ Py.len original_batch = Z.min batch_size (Py.len a - batch_start)
    /\ (Py.len original_batch <= batch_size)%Z.
Proof.
  intros a Hstart Hsize.
  set (j := Z.min (batch_start + batch_size) (Py.len a)).
  assert (Hj : (batch_start <= j <= Py.len a)%Z) by (subst j; lia).
  exists (Py.slice a batch_start j). split; [unfold extract_batch; run; reflexivity|].
  split; [apply slice_in_range; lia|].
  assert (Hlen : length (Py.slice a batch_start j) = Z.to_nat (j - batch_start))
    by (apply slice_length; lia).
  split.
  - intros k Hk. apply slice_lookup; subst j; lia.
  - unfold Py.len at 1 3. rewrite Hlen. subst j. lia.
Qed.

Lemma step_on_batch_run self (positive_batch negative_batch : ndarray) w :
  let fp := model_forward (zero_grad (model w)) positive_batch in
  let fn := model_forward fp.1 negative_batch in
  let loss :=
    tensor_add
      (MarginRankingLoss (margin self) fp.2.1 fn.2.1 (torch_tensor target_data))
      (tensor_div (tensor_add (L2_forward (regularizer_weight self) fp.2.2)
                              (L2_forward (regularizer_weight self) fn.2.2)) 2) in
  step_on_batch self positive_batch negative_batch w
  = Ok loss
       {| heap := heap w; rng := rng w;
          model := (optimizer_step (optim w) (backward loss fn.1)).2;
          optim := (optimizer_step (optim w) (backward loss fn.1)).1;
          trace := trace w ++
            [EvZeroGrad; EvForward positive_batch; EvForward negative_batch;
             EvNewTensor target_data; EvBackward; EvOptimizerStep] |}.
Proof.
  intros. subst loss fn fp. destruct w as [h g m o t].
  unfold step_on_batch. run. rewrite <- !app_assoc. reflexivity.
Qed.

(** C4: [step_on_batch] returns the margin-ranking loss of the positive
    and negative scores plus half the sum of the regularizer on the
    positive and on the negative factors; scores and factors are those of
    forwarding the positive batch first and the negative batch second
    through the model, once the gradients are cleared. *)
Theorem step_on_batch_loss self (positive_batch negative_batch : ndarray) w :
  let fp := model_forward (zero_grad (model w)) positive_batch in
  let fn := model_forward fp.1 negative_batch in
  let l_fit :=
    MarginRankingLoss (margin self) fp.2.1 fn.2.1 (torch_tensor [(-1)%Z]) in
  let l_reg :=
    tensor_div (tensor_add (L2_forward (regularizer_weight self) fp.2.2)
                           (L2_forward (regularizer_weight self) fn.2.2)) 2 in
  let loss := tensor_add l_fit l_reg in
  exists w',
    step_on_batch self positive_batch negative_batch w = Ok loss w'
    /\ model w' = (optimizer_step (optim w) (backward loss fn.1)).2
    /\ trace w' = trace w ++
         [EvZeroGrad; EvForward positive_batch; EvForward negative_batch;
          EvNewTensor [(-1)%Z]; EvBackward; EvOptimizerStep].
Proof.
  intros. eexists. split; [apply step_on_batch_run|].
  split; reflexivity.
Qed.

Lemma init_outcome (hyperparameters : gmap string value) (vb : bool) w :
  match PairwiseRankingOptimizer_init hyperparameters vb w with
  | Ok self w' =>
      hyperparameters !! BATCH_SIZE = Some (batch_size self)
      /\ hyperparameters !! LEARNING_RATE = Some (learning_rate self)
      /\ hyperparameters !! EPOCHS = Some (epochs self)
      /\ hyperparameters !! MARGIN = Some (margin self)
      /\ hyperparameters !! NEGATIVE_SAMPLES_RATIO = Some (negative_samples_ratio self)
      /\ hyperparameters !! REGULARIZER_WEIGHT = Some (regularizer_weight self)
      /\ tensors_built (trace w') = tensors_built (trace w)
  | Raise e w' =>
      w' = w /\ exists k, e = KeyError k /\ k ∈ required_keys
                          /\ hyperparameters !! k = None
  | OutOfFuel _ => False
  end.
Proof.
  unfold PairwiseRankingOptimizer_init, Optimizer_init, required_keys. run.
  destruct (hyperparameters !! BATCH_SIZE) eqn:E1;
    [|split; [reflexivity|]; eexists; split; [reflexivity|];
      split; [set_solver|assumption]].
  destruct (hyperparameters !! LEARNING_RATE) eqn:E2;
    [|split; [reflexivity|]; eexists; split; [reflexivity|];
      split; [set_solver|assumption]].
  destruct (hyperparameters !! EPOCHS) eqn:E3;
    [|split; [reflexivity|]; eexists; split; [reflexivity|];
      split; [set_solver|assumption]].
  destruct (hyperparameters !! MARGIN) eqn:E4;
    [|split; [reflexivity|]; eexists; split; [reflexivity|];
      split; [set_solver|assumption]].
  destruct (hyperparameters !! NEGATIVE_SAMPLES_RATIO) eqn:E5;
    [|split; [reflexivity|]; eexists; split; [reflexivity|];
      split; [set_solver|assumption]].
  destruct (hyperparameters !! REGULARIZER_WEIGHT) eqn:E6;
    [|split; [reflexivity|]; eexists; split; [reflexivity|];
      split; [set_solver|assumption]].
  cbn. repeat split. unfold tensors_built. rewrite !omap_app. cbn.
  rewrite !app_nil_r. reflexivity.
Qed.

(** C8: if any of the six hyperparameters is missing from the mapping,
    constructing the optimizer (either class) raises [KeyError] for a
    missing key before anything is built; and when construction succeeds,
    every attribute is the value the mapping holds for its key, so no
    default is ever put in its place. *)
Theorem init_requires_every_key (hyperparameters : gmap string value)
    (vb : bool) w :
  (forall k, k ∈ required_keys -> hyperparameters !! k = None ->
     exists k', k' ∈ required_keys /\ hyperparameters !! k' = None
       /\ PairwiseRankingOptimizer_init hyperparameters vb w
          = Raise (KeyError k') w
       /\ KelpiePairwiseRankingOptimizer_init hyperparameters vb w
          = Raise (KeyError k') w)
  /\ (forall self w',
        PairwiseRankingOptimizer_init hyperparameters vb w = Ok self w' ->
        hyperparameters !! BATCH_SIZE = Some (batch_size self)
        /\ hyperparameters !! LEARNING_RATE = Some (learning_rate self)
        /\ hyperparameters !! EPOCHS = Some (epochs self)
        /\ hyperparameters !! MARGIN = Some (margin self)
        /\ hyperparameters !! NEGATIVE_SAMPLES_RATIO
           = Some (negative_samples_ratio self)
        /\ hyperparameters !! REGULARIZER_WEIGHT
           = Some (regularizer_weight self)).
Proof.
  pose proof (init_outcome hyperparameters vb w) as H.
  split.
  - intros k Hk Hnone.
    unfold KelpiePairwiseRankingOptimizer_init, bind at 1.
    destruct (PairwiseRankingOptimizer_init hyperparameters vb w)
      as [self w'|e w'|w']; [|..].
    + exfalso. destruct H as (H1 & H2 & H3 & H4 & H5 & H6 & _).
      unfold required_keys in Hk.
      repeat (apply elem_of_cons in Hk as [->|Hk]; [congruence|]).
      inversion Hk.
    + destruct H as (-> & k' & -> & Hk' & Hnone'). exists k'. auto.
    + contradiction.
  - intros self w' Hok. rewrite Hok in H. tauto.
Qed.

(** C3 (as amended): the target label is the constant [-1]; it is not an
    attribute set at construction, where no tensor is built, but is built
    anew from that constant by every [step_on_batch] call, which passes
    it to the ranking loss whatever the optimizer, the batches and the
    state of the model are. *)
Theorem target_constant_per_step self (positive_batch negative_batch : ndarray)
    (hyperparameters : gmap string value) (vb : bool) w :
  target_data = [(-1)%Z]
  /\ tensors_built
       (trace (final (PairwiseRankingOptimizer_init hyperparameters vb w)))
     = tensors_built (trace w)
  /\ exists positive_scores negative_scores l_reg w',
       step_on_batch self positive_batch negative_batch w
         = Ok (tensor_add
                 (MarginRankingLoss (margin self) positive_scores negative_scores
                                    (torch_tensor target_data))
                 l_reg) w'
       /\ tensors_built (trace w') = tensors_built (trace w) ++ [target_data].
Proof.
  split; [reflexivity|]. split.
  - pose proof (init_outcome hyperparameters vb w) as H.
    destruct (PairwiseRankingOptimizer_init hyperparameters vb w)
      as [s w'|e w'|w']; cbn.
    + tauto.
    + destruct H as [-> _]. reflexivity.
    + contradiction.
  - do 4 eexists. split; [apply step_on_batch_run|].
    cbn. unfold tensors_built. rewrite omap_app. reflexivity.
Qed.

End Step.

(** ** What a computation can touch, however it ends *)

Section Frames.

Context {C : Collaborators}.
Implicit Types (self : PairwiseRankingOptimizer) (w : world) (P : event -> Prop).

Lemma reaches_refl P l w : reaches P l w w.
Proof.
  split; [|split]; [|reflexivity|reflexivity].
  exists []. split; [symmetry; apply app_nil_r|constructor].
Qed.

Lemma reaches_trans P l w1 w2 w3 :
  reaches P l w1 w2 -> reaches P l w2 w3 -> reaches P l w1 w3.
Proof.
  intros ((d1 & Ht1 & Hd1) & Hh1 & Hp1) ((d2 & Ht2 & Hd2) & Hh2 & Hp2).
  split; [|split].
  - exists (d1 ++ d2). split.
    + rewrite Ht2, Ht1, app_assoc. reflexivity.
    + apply Forall_app; split; assumption.
  - intros l' Hl'. rewrite Hh2, Hh1 by assumption. reflexivity.
  - intros Hs. etransitivity; [apply Hp2|apply Hp1]; assumption.
Qed.

Lemma reaches_mono P Q l w w' :
  (forall e, P e -> Q e) -> reaches P l w w' -> reaches Q l w w'.
Proof.
  intros HPQ ((d & Ht & Hd) & Hh & Hp). split; [|split]; [|assumption..].
  exists d. split; [assumption|]. eapply Forall_impl; eassumption.
Qed.

Lemma reaches_set_rng P l g w : reaches P l w (set_rng g w).
Proof.
  split; [|split]; [|reflexivity|reflexivity].
  exists []. split; [symmetry; apply app_nil_r|constructor].
Qed.

Lemma reaches_set_model P l m w : reaches P l w (set_model m w).
Proof.
  split; [|split]; [|reflexivity|reflexivity].
  exists []. split; [symmetry; apply app_nil_r|constructor].
Qed.

Lemma reaches_set_optim P l o w : reaches P l w (set_optim o w).
Proof.
  split; [|split]; [|reflexivity|reflexivity].
  exists []. split; [symmetry; apply app_nil_r|constructor].
Qed.

Lemma reaches_log P l e w : P e -> reaches P l w (log e w).
Proof.
  intros He. split; [|split]; [|reflexivity|reflexivity].
  exists [e]. split; [reflexivity|]. constructor; [assumption|constructor].
Qed.

Lemma always_ret P l {A} (a : A) : always P l (ret a).
Proof. intros w. apply reaches_refl. Qed.

Lemma always_raise P l {A} e : always P l (raise (A:=A) e).
Proof. intros w. apply reaches_refl. Qed.

Lemma always_out_of_fuel P l {A} : always P l (out_of_fuel (A:=A)).
Proof. intros w. apply reaches_refl. Qed.

Lemma always_gets P l {A} (f : world -> A) : always P l (gets f).
Proof. intros w. apply reaches_refl. Qed.

Lemma always_modify P l (f : world -> world) :
  (forall w, reaches P l w (f w)) -> always P l (modify f).
Proof. intros Hf w. apply Hf. Qed.

Lemma always_emit P l e : P e -> always P l (emit e).
Proof. intros He w. apply reaches_log, He. Qed.

Lemma always_bind P l {A B} (m : M A) (k : A -> M B) :
  always P l m -> (forall a, always P l (k a)) -> always P l (bind m k).
Proof.
  intros Hm Hk w. specialize (Hm w). unfold bind.
  destruct (m w) as [a w1|e w1|w1]; cbn in *; [|assumption..].
  eapply reaches_trans; [exact Hm|apply Hk].
Qed.

Lemma always_mono P Q l {A} (m : M A) :
  (forall e, P e -> Q e) -> always P l m -> always Q l m.
Proof. intros HPQ Hm w. eapply reaches_mono; [exact HPQ|apply Hm]. Qed.

Lemma always_for_each P l {A} (xs : list A) (body : A -> M unit) :
  (forall x, always P l (body x)) -> always P l (for_each xs body).
Proof.
  intros Hb. induction xs as [|x xs IH]; cbn.
  - apply always_ret.
  - apply always_bind; [apply Hb|intros _; exact IH].
Qed.

Lemma load_insert_eq (l : loc) (a : ndarray) h w :
  load l (set_heap (<[l := a]> h) w) = a.
Proof. unfold load; cbn. rewrite lookup_insert_eq. reflexivity. Qed.

Lemma always_np_shuffle P l : P (EvShuffle l) -> always P l (np_shuffle l).
Proof.
  intros HP w. unfold np_shuffle.
  destruct (np_random_shuffle (rng w) (load l w)) as [g a] eqn:E. cbn.
  split; [|split].
  - exists [EvShuffle l]. split; [reflexivity|].
    constructor; [assumption|constructor].
  - intros l' Hl'. cbn. apply lookup_insert_ne. congruence.
  - intros Hs. unfold load at 1; cbn. rewrite lookup_insert_eq; cbn.
    specialize (Hs (rng w) (load l w)). rewrite E in Hs. exact Hs.
Qed.

Ltac frame :=
  repeat first
    [ apply always_ret | apply always_raise | apply always_out_of_fuel
    | apply always_gets
    | apply always_emit; cbn; try tauto
    | apply always_modify; intros ?;
      first [apply reaches_set_model | apply reaches_set_rng
            | apply reaches_set_optim]
    | apply always_bind; [|intros ?] ].

Lemma always_extract_batch P l self (arr : loc) (batch_start batch_size : Z) :
  (forall e, epoch_event l e -> P e) ->
  always P l (extract_batch self arr batch_start batch_size).
Proof.
  intros HP. unfold extract_batch. frame. apply HP. exact I.
Qed.

Lemma always_step_on_batch P l self (positive_batch negative_batch : ndarray) :
  (forall e, epoch_event l e -> P e) ->
  always P l (step_on_batch self positive_batch negative_batch).
Proof.
  intros HP. unfold step_on_batch, forward. frame; apply HP; exact I.
Qed.

Lemma always_epoch_while P l self fuel (batch_size batch_start : Z) :
  (forall e, epoch_event l e -> P e) ->
  always P l (epoch_while fuel self l batch_size batch_start).
Proof.
  intros HP. revert batch_start.
  induction fuel as [|fuel IH]; intros batch_start; cbn.
  - apply always_out_of_fuel.
  - apply always_bind; [apply always_gets|intros a].
    destruct (batch_start <? Py.len a)%Z; [|apply always_ret].
    apply always_bind; [apply always_extract_batch, HP|intros b].
    apply always_bind; [apply always_step_on_batch, HP|intros _].
    apply IH.
Qed.

Lemma always_kelpie_epoch_while P l self fuel (batch_size batch_start : Z) :
  (forall e, epoch_event l e -> P e) ->
  always P l (kelpie_epoch_while fuel self l batch_size batch_start).
Proof.
  intros HP. revert batch_start.
  induction fuel as [|fuel IH]; intros batch_start; cbn.
  - apply always_out_of_fuel.
  - apply always_bind; [apply always_gets|intros a].
    destruct (batch_start <? Py.len a)%Z; [|apply always_ret].
    apply always_bind; [apply always_extract_batch, HP|intros b].
    apply always_bind; [apply always_step_on_batch, HP|intros _].
    apply always_bind;
      [apply always_modify; intros ?; apply reaches_set_model|intros _].
    apply always_bind; [apply always_emit, HP; exact I|intros _].
    apply IH.
Qed.

Lemma always_epoch P l self fuel (batch_size : Z) :
  (forall e, epoch_event l e -> P e) ->
  always P l (epoch fuel self batch_size l).
Proof.
  intros HP. unfold epoch.
  destruct (cls self);
    [unfold PairwiseRankingOptimizer_epoch
    |unfold KelpiePairwiseRankingOptimizer_epoch];
    (apply always_bind;
       [apply always_np_shuffle, HP; reflexivity|intros _]);
    (apply always_bind;
       [apply always_modify; intros ?; apply reaches_set_model|intros _]);
    (apply always_bind; [apply always_emit, HP; exact I|intros _]).
  - apply always_epoch_while, HP.
  - apply always_kelpie_epoch_while, HP.
Qed.

Lemma train_unfold fuel self (train_samples : loc) save_path evaluate_every
    valid_samples w :
  let a := load train_samples w in
  let l := fresh (dom (heap w)) in
  train fuel self train_samples save_path evaluate_every valid_samples w
  = train_rest fuel self l save_path evaluate_every valid_samples
      (set_heap (<[l := a ++ invert_samples a]> (heap w)) w).
Proof. reflexivity. Qed.

Lemma fresh_loc_unused w : heap w !! fresh (dom (heap w)) = None.
Proof. apply not_elem_of_dom, is_fresh. Qed.

Lemma always_train_rest P l fuel self save_path (evaluate_every : Z)
    (valid_samples : option loc) :
  (forall e, epoch_event l e -> P e) ->
  P EvModelCuda ->
  (forall p m, save_path = Some p -> P (EvSave p m)) ->
  ((0 < evaluate_every)%Z -> valid_samples <> None ->
   P EvModelEval /\ forall v, P (EvEval v)) ->
  always P l (train_rest fuel self l save_path evaluate_every valid_samples).
Proof.
  intros Hep Hcuda Hsave Hval. unfold train_rest.
  apply always_bind;
    [apply always_modify; intros ?; apply reaches_set_model|intros _].
  apply always_bind; [apply always_emit, Hcuda|intros _].
  apply always_bind; [destruct (epochs self); frame|intros n].
  apply always_bind.
  - apply always_for_each. intros e. unfold epoch_and_validate, due.
    apply always_bind; [destruct (batch_size self); frame|intros bs].
    apply always_bind; [apply always_epoch, Hep|intros _].
    destruct (0 <? evaluate_every)%Z eqn:E1; cbn; [|apply always_ret].
    case_bool_decide as E2; cbn; [|apply always_ret].
    destruct (e mod evaluate_every =? 0)%Z; [|apply always_ret].
    apply Z.ltb_lt in E1. destruct (Hval E1 E2) as [Hmode Heval].
    unfold validate.
    apply always_bind;
      [apply always_modify; intros ?; apply reaches_set_model|intros _].
    apply always_bind; [apply always_emit, Hmode|intros _].
    apply always_bind; [apply always_gets|intros v].
    apply always_bind; [apply always_gets|intros m].
    apply always_bind; [apply always_emit, Heval|intros _].
    destruct save_path as [p|]; [|apply always_ret].
    unfold save_model.
    apply always_bind; [apply always_gets|intros m'].
    apply always_emit, Hsave. reflexivity.
  - intros _. destruct save_path as [p|]; [|apply always_ret].
    unfold save_model.
    apply always_bind; [apply always_gets|intros m'].
    apply always_emit, Hsave. reflexivity.
Qed.

Lemma evaluations_app (t1 t2 : list event) :
  evaluations (t1 ++ t2) = evaluations t1 ++ evaluations t2.
Proof. apply omap_app. Qed.

Lemma checkpoints_app (t1 t2 : list event) :
  checkpoints (t1 ++ t2) = checkpoints t1 ++ checkpoints t2.
Proof. apply omap_app. Qed.

Lemma not_validation_evaluations (d : list event) :
  Forall not_validation d -> evaluations d = [] /\ (EvModelEval ∉ d).
Proof.
  induction 1 as [|e d He Hd [IH1 IH2]]; [split; [reflexivity|set_solver]|].
  split.
  - destruct e; cbn in *; try contradiction; exact IH1.
  - intros Hin. apply elem_of_cons in Hin as [<-|Hin]; [exact He|tauto].
Qed.

(** C7: when [evaluate_every <= 0] (the default [-1] included), [train]
    never runs the evaluator and never switches the model to evaluation
    mode, with or without [valid_samples], for every bound on the loop
    and however the run ends. *)
Theorem train_never_evaluates_when_disabled fuel self (train_samples : loc)
    (save_path : option string) (evaluate_every : Z)
    (valid_samples : option loc) w :
  (evaluate_every <= 0)%Z ->
  let w' := final (train fuel self train_samples save_path evaluate_every
                         valid_samples w) in
  exists d, trace w' = trace w ++ d
            /\ evaluations d = []
            /\ (EvModelEval ∉ d)
            /\ evaluations (trace w') = evaluations (trace w).
Proof.
  intros Hoff w'. subst w'. rewrite train_unfold.
  edestruct (always_train_rest not_validation) as ((d & Ht & Hd) & _);
    [| | | |exists d; split; [exact Ht|]].
  - intros e He. destruct e; cbn in *; tauto.
  - exact I.
  - intros; exact I.
  - intros Hpos. lia.
  - apply not_validation_evaluations in Hd as [Hd1 Hd2].
    split; [exact Hd1|]. split; [exact Hd2|].
    rewrite Ht, evaluations_app, Hd1. cbn. apply app_nil_r.
Qed.

(** C9: [train] never changes the caller's [train_samples] array, nor any
    other array that exists when it is called: the training set is a new
    array, the rows of [train_samples] stacked on their inversions, and
    every shuffle is applied to that new array, for every bound on the
    loop and however the run ends. *)
Theorem train_leaves_caller_arrays fuel self (train_samples : loc)
    (save_path : option string) (evaluate_every : Z)
    (valid_samples : option loc) w :
  is_Some (heap w !! train_samples) ->
  let w' := final (train fuel self train_samples save_path evaluate_every
                         valid_samples w) in
  let training_samples := fresh (dom (heap w)) in
  heap w' !! train_samples = heap w !! train_samples
  /\ (forall l, is_Some (heap w !! l) -> heap w' !! l = heap w !! l)
  /\ heap w !! training_samples = None
  /\ (shuffle_permutes ->
      load training_samples w'
      ≡ₚ load train_samples w ++ invert_samples (load train_samples w))
  /\ exists d, trace w' = trace w ++ d
               /\ forall l, EvShuffle l ∈ d -> l = training_samples.
Proof.
  intros Halloc w' l. subst w'. rewrite train_unfold. fold l.
  pose proof (fresh_loc_unused w) as Hfresh. fold l in Hfresh.
  edestruct (always_train_rest (shuffles_only l) l) as ((d & Ht & Hd) & Hh & Hp).
  - intros e He. destruct e; cbn in *; tauto.
  - exact I.
  - intros; exact I.
  - intros; split; intros; exact I.
  - assert (Hkeep : forall l', is_Some (heap w !! l') ->
        heap (final (train_rest fuel self l save_path evaluate_every valid_samples
           (set_heap (<[l := load train_samples w ++ invert_samples (load train_samples w)]>
                        (heap w)) w))) !! l' = heap w !! l').
    { intros l' [a Ha]. assert (l' <> l) by congruence.
      rewrite Hh by assumption. cbn. apply lookup_insert_ne. congruence. }
    split; [apply Hkeep, Halloc|]. split; [exact Hkeep|].
    split; [exact Hfresh|]. split.
    { intros Hs. etransitivity; [apply Hp, Hs|].
      unfold load at 1; cbn. rewrite lookup_insert_eq. reflexivity. }
    exists d. split; [exact Ht|].
    intros l' Hin. rewrite Forall_forall in Hd. exact (Hd _ Hin).
Qed.

End Frames.

(** ** Batches of an epoch *)

Section Batches.

Context {C : Collaborators}.
Implicit Types (self : PairwiseRankingOptimizer) (w : world).

Lemma epoch_while_eq fuel self l (b start : Z) w :
  epoch_while fuel self l b start w = while_with false fuel self l b start w.
Proof.
  revert start w. induction fuel as [|fuel IH]; intros start w; [reflexivity|].
  cbn [epoch_while while_with]. run.
  destruct (start <? Py.len (load l w))%Z; [|reflexivity].
  unfold extract_batch. run. rewrite step_on_batch_run. apply IH.
Qed.

Lemma kelpie_epoch_while_eq fuel self l (b start : Z) w :
  kelpie_epoch_while fuel self l b start w = while_with true fuel self l b start w.
Proof.
  revert start w. induction fuel as [|fuel IH]; intros start w; [reflexivity|].
  cbn [kelpie_epoch_while while_with]. run.
  destruct (start <? Py.len (load l w))%Z; [|reflexivity].
  unfold extract_batch. run. rewrite step_on_batch_run. apply IH.
Qed.

Lemma num_batches_done (n b : Z) : (1 <= b)%Z -> (n <= 0)%Z -> num_batches n b = 0.
Proof.
  intros Hb Hn. unfold num_batches.
  assert ((n + b - 1) / b <= 0)%Z; [|lia].
  apply Z.lt_succ_r, Z.div_lt_upper_bound; lia.
Qed.

Lemma num_batches_step (n b : Z) :
  (1 <= b)%Z -> (0 < n)%Z -> num_batches n b = S (num_batches (n - b) b).
Proof.
  intros Hb Hn. unfold num_batches.
  replace (n + b - 1)%Z with ((n - b + b - 1) + 1 * b)%Z by lia.
  rewrite Z.div_add by lia.
  assert (0 <= (n - b + b - 1) / b)%Z by (apply Z.div_pos; lia). lia.
Qed.

Lemma num_batches_le (n b : Z) :
  (1 <= b)%Z -> (0 <= n)%Z -> (Z.of_nat (num_batches n b) <= n)%Z.
Proof.
  intros Hb Hn. unfold num_batches.
  assert (0 <= (n + b - 1) / b)%Z by (apply Z.div_pos; lia).
  rewrite Z2Nat.id by assumption.
  destruct (Z.eq_dec n 0%Z) as [->|Hn0].
  - rewrite Z.div_small; lia.
  - apply Z.div_le_upper_bound; nia.
Qed.

(** [num_batches n b] is the ceiling of [n / b]. *)
Lemma num_batches_ceil (n b : Z) :
  (1 <= b)%Z -> (0 <= n)%Z ->
  (b * (Z.of_nat (num_batches n b) - 1) < n <= b * Z.of_nat (num_batches n b))%Z.
Proof.
  intros Hb Hn. unfold num_batches.
  assert (0 <= (n + b - 1) / b)%Z by (apply Z.div_pos; lia).
  rewrite Z2Nat.id by assumption.
  pose proof (Z.div_mod (n + b - 1) b ltac:(lia)).
  pose proof (Z.mod_pos_bound (n + b - 1) b ltac:(lia)). lia.
Qed.

Lemma chunks_length k (a : ndarray) (b start : Z) : length (chunks k a b start) = k.
Proof. revert start. induction k; intros; cbn; [|rewrite IHk]; reflexivity. Qed.

Lemma bind_run {A B} (m : M A) (k : A -> M B) w a w1 :
  m w = Ok a w1 -> bind m k w = k a w1.
Proof. intros H. unfold bind. rewrite H. reflexivity. Qed.

Lemma extract_batch_run self l (start b : Z) w :
  extract_batch self l start b w
  = Ok (batch_at self l b start w).2
       (log (EvCorrupt (batch_at self l b start w).1 (negative_samples_ratio self))
            (set_rng (corrupt_samples (rng w) (batch_at self l b start w).1
                                      (negative_samples_ratio self)).1 w)).
Proof. reflexivity. Qed.

Lemma sync_embeddings_run sync w :
  sync_embeddings sync w
  = Ok tt (if sync
           then log EvUpdateEmbeddings
                    (set_model (model_update_embeddings (model w)) w)
           else w).
Proof. destruct sync; reflexivity. Qed.

Lemma while_with_unroll sync fuel self l (b start : Z) w :
  (start < Py.len (load l w))%Z ->
  while_with sync (S fuel) self l b start w
  = while_with sync fuel self l b (start + b) (after_batch sync self l b start w).
Proof.
  intros Hlt. cbn [while_with]. unfold after_batch.
  rewrite (bind_run _ _ w (load l w) w) by reflexivity.
  apply Z.ltb_lt in Hlt. rewrite Hlt.
  rewrite !(bind_run _ _ _ _ _ (extract_batch_run self l start b w)).
  rewrite !(bind_run _ _ _ _ _ (step_on_batch_run self _ _ _)).
  rewrite sync_embeddings_run.
  destruct sync; reflexivity.
Qed.

Lemma after_batch_heap sync self l (b start : Z) w :
  heap (after_batch sync self l b start w) = heap w.
Proof.
  unfold after_batch.
  rewrite !(bind_run _ _ _ _ _ (extract_batch_run self l start b w)).
  rewrite !(bind_run _ _ _ _ _ (step_on_batch_run self _ _ _)).
  rewrite sync_embeddings_run.
  destruct sync; reflexivity.
Qed.

Lemma after_batch_trace sync self l (b start : Z) w :
  trace (after_batch sync self l b start w)
  = trace w ++ batch_events self sync (batch_at self l b start w).
Proof.
  unfold after_batch.
  rewrite !(bind_run _ _ _ _ _ (extract_batch_run self l start b w)).
  rewrite !(bind_run _ _ _ _ _ (step_on_batch_run self _ _ _)).
  rewrite sync_embeddings_run. unfold batch_events.
  destruct sync; cbn [final trace log set_model];
    rewrite <- ?app_assoc; reflexivity.
Qed.

Lemma while_with_run sync self l (b : Z) :
  (1 <= b)%Z ->
  forall fuel (start : Z) w,
    num_batches (Py.len (load l w) - start) b < fuel ->
    exists w' bs,
      while_with sync fuel self l b start w = Ok tt w'
      /\ heap w' = heap w
      /\ trace w' = trace w ++ flat_map (batch_events self sync) bs
      /\ bs.*1 = chunks (num_batches (Py.len (load l w) - start) b)
                        (load l w) b start.
Proof.
  intros Hb. induction fuel as [|fuel IH]; intros start w Hfuel; [lia|].
  destruct (Z.ltb_spec start (Py.len (load l w))) as [Hlt|Hge].
  - rewrite while_with_unroll by assumption.
    rewrite num_batches_step in Hfuel |- * by lia.
    assert (Hload : load l (after_batch sync self l b start w) = load l w)
      by (unfold load; rewrite after_batch_heap; reflexivity).
    destruct (IH (start + b)%Z (after_batch sync self l b start w))
      as (w' & bs & Hrun & Hheap & Htrace & Hbs).
    { rewrite Hload.
      replace (Py.len (load l w) - (start + b))%Z
        with (Py.len (load l w) - start - b)%Z by lia. lia. }
    exists w', (batch_at self l b start w :: bs).
    split; [exact Hrun|]. split; [rewrite Hheap; apply after_batch_heap|]. split.
    + rewrite Htrace, after_batch_trace, <- app_assoc. reflexivity.
    + cbn [fmap list_fmap chunks]. f_equal.
      change (bs.*1 = chunks (num_batches (Py.len (load l w) - start - b) b)
                             (load l w) b (start + b)).
      rewrite Hbs, Hload. do 2 f_equal. lia.
  - cbn [while_with]. unfold bind, gets.
    apply Z.ltb_ge in Hge. rewrite Hge.
    rewrite num_batches_done by lia.
    exists w, []. cbn. rewrite app_nil_r. auto.
Qed.

Lemma np_shuffle_run (l : loc) w :
  let r := np_random_shuffle (rng w) (load l w) in
  np_shuffle l w
  = Ok tt (log (EvShuffle l) (set_heap (<[l := r.2]> (heap w)) (set_rng r.1 w))).
Proof.
  unfold np_shuffle. destruct (np_random_shuffle (rng w) (load l w)). reflexivity.
Qed.

Lemma class_epoch_unfold sync fuel self (b : Z) l w :
  class_epoch sync fuel self b l w
  = while_with sync fuel self l b 0 (epoch_start l w).
Proof.
  unfold class_epoch, epoch_start.
  destruct sync;
    [unfold KelpiePairwiseRankingOptimizer_epoch
    |unfold PairwiseRankingOptimizer_epoch];
    rewrite (bind_run _ _ _ _ _ (np_shuffle_run l w));
    (rewrite (bind_run _ _ _ tt _) by reflexivity);
    (rewrite (bind_run _ _ _ tt _) by reflexivity);
    [apply kelpie_epoch_while_eq|apply epoch_while_eq].
Qed.

Lemma class_epoch_run sync fuel self (b : Z) l w :
  (1 <= b)%Z ->
  let a := (np_random_shuffle (rng w) (load l w)).2 in
  num_batches (Py.len a) b < fuel ->
  exists w' bs,
    class_epoch sync fuel self b l w = Ok tt w'
    /\ heap w' = <[l := a]> (heap w)
    /\ trace w' = trace w ++ [EvShuffle l; EvModelTrain]
                  ++ flat_map (batch_events self sync) bs
    /\ bs.*1 = chunks (num_batches (Py.len a) b) a b 0.
Proof.
  intros Hb a Hfuel.
  assert (Hload : load l (epoch_start l w) = a)
    by (unfold load, epoch_start; cbn; rewrite lookup_insert_eq; reflexivity).
  destruct (while_with_run sync self l b Hb fuel 0 (epoch_start l w))
    as (w' & bs & Hrun & Hheap & Htrace & Hbs).
  { rewrite Hload, Z.sub_0_r. exact Hfuel. }
  rewrite Hload, Z.sub_0_r in Hbs.
  exists w', bs. rewrite class_epoch_unfold.
  split; [exact Hrun|]. split; [exact Hheap|]. split; [|exact Hbs].
  rewrite Htrace. unfold epoch_start; cbn. rewrite <- !app_assoc. reflexivity.
Qed.

Lemma epoch_class fuel self (b : Z) l :
  epoch fuel self b l = class_epoch (is_kelpie self) fuel self b l.
Proof. unfold epoch, class_epoch, is_kelpie. destruct (cls self); reflexivity. Qed.

Lemma corrupted_batches_batch_events self sync
    (bs : list (ndarray * (ndarray * ndarray))) :
  corrupted_batches (flat_map (batch_events self sync) bs) = bs.*1.
Proof.
  induction bs as [|x bs IH]; [reflexivity|].
  cbn [flat_map]. unfold corrupted_batches in *. rewrite omap_app, IH.
  destruct sync; reflexivity.
Qed.

Lemma count_steps_batch_events self sync
    (bs : list (ndarray * (ndarray * ndarray))) :
  count is_optimizer_step (flat_map (batch_events self sync) bs) = length bs.
Proof.
  induction bs as [|x bs IH]; [reflexivity|].
  cbn [flat_map]. rewrite count_app, IH. destruct sync; reflexivity.
Qed.

Lemma count_updates_batch_events self
    (bs : list (ndarray * (ndarray * ndarray))) :
  count is_update_embeddings (flat_map (batch_events self true) bs) = length bs.
Proof.
  induction bs as [|x bs IH]; [reflexivity|].
  cbn [flat_map]. rewrite count_app, IH. reflexivity.
Qed.

Lemma count_train_batch_events self sync
    (bs : list (ndarray * (ndarray * ndarray))) :
  count is_model_train (flat_map (batch_events self sync) bs) = 0.
Proof.
  induction bs as [|x bs IH]; [reflexivity|].
  cbn [flat_map]. rewrite count_app, IH. destruct sync; reflexivity.
Qed.

Lemma epoch_event_batch_events l self sync
    (bs : list (ndarray * (ndarray * ndarray))) :
  Forall (epoch_event l) (flat_map (batch_events self sync) bs).
Proof.
  induction bs as [|x bs IH]; [constructor|].
  cbn [flat_map]. apply Forall_app. split; [|exact IH].
  destruct sync; repeat constructor.
Qed.

(** C2: one Kelpie epoch over an array of [n] rows with batch size
    [b >= 1] runs [N = ceil(n / b)] batches and calls
    [model.update_embeddings()] exactly [N] times: the calls of the epoch
    are, after the shuffle and [model.train()], [N] blocks, one per
    batch, and in each block the hook comes right after the optimizer's
    parameter update of that batch, hence before the forward pass of the
    next block. *)
Theorem kelpie_epoch_syncs_after_every_step fuel self (batch_size : Z)
    (training_samples : loc) w :
  (1 <= batch_size)%Z ->
  let a := (np_random_shuffle (rng w) (load training_samples w)).2 in
  let N := num_batches (Py.len a) batch_size in
  N < fuel ->
  exists w' (bs : list (ndarray * (ndarray * ndarray))),
    KelpiePairwiseRankingOptimizer_epoch fuel self batch_size training_samples w
      = Ok tt w'
    /\ length bs = N
    /\ trace w' = trace w ++ [EvShuffle training_samples; EvModelTrain] ++
         flat_map (fun x =>
           [EvCorrupt x.1 (negative_samples_ratio self); EvZeroGrad;
            EvForward x.2.1; EvForward x.2.2; EvNewTensor [(-1)%Z];
            EvBackward; EvOptimizerStep; EvUpdateEmbeddings]) bs
    /\ (forall d, trace w' = trace w ++ d -> count is_update_embeddings d = N).
Proof.
  intros Hb a N Hfuel.
  destruct (class_epoch_run true fuel self batch_size training_samples w Hb Hfuel)
    as (w' & bs & Hrun & Hheap & Htrace & Hbs).
  assert (Hlen : length bs = N).
  { rewrite <- (length_fmap fst), Hbs. apply chunks_length. }
  exists w', bs. split; [exact Hrun|]. split; [exact Hlen|]. split.
  - exact Htrace.
  - intros d Hd. rewrite Htrace in Hd. apply app_inv_head in Hd. subst d.
    rewrite count_app. cbn [count is_update_embeddings].
    rewrite count_updates_batch_events. exact Hlen.
Qed.

End Batches.

(** ** Whole runs *)

Section Runs.

Context {C : Collaborators}.
Implicit Types (self : PairwiseRankingOptimizer) (w : world).

Lemma validate_run save_path valid_samples w :
  exists w' v,
    validate save_path valid_samples w = Ok tt w'
    /\ heap w' = heap w
    /\ trace w' = trace w
                  ++ validation_events save_path v (model_eval (model w)).
Proof.
  destruct w as [h g m o t]. unfold validate, validation_events.
  destruct save_path as [p|]; run; do 2 eexists;
    (split; [reflexivity|]); (split; [reflexivity|]);
    rewrite <- !app_assoc; reflexivity.
Qed.

Lemma epoch_and_validate_run fuel self l save_path (evaluate_every : Z)
    valid_samples (b : Z) (a0 : ndarray) (e : Z) w :
  shuffle_permutes ->
  batch_size self = PInt b -> (1 <= b)%Z -> length a0 < fuel ->
  load l w ≡ₚ a0 ->
  exists w' seg,
    epoch_and_validate fuel self l save_path evaluate_every valid_samples e w
      = Ok tt w'
    /\ load l w' ≡ₚ a0
    /\ trace w' = trace w ++ seg
    /\ run_segment self l b a0 save_path evaluate_every valid_samples e seg.
Proof.
  intros Hperm Hbs Hb Hfuel Hload.
  set (a := (np_random_shuffle (rng w) (load l w)).2).
  assert (Ha : a ≡ₚ a0) by (etransitivity; [apply Hperm|exact Hload]).
  destruct (class_epoch_run (is_kelpie self) fuel self b l w Hb)
    as (w1 & bs & Hrun & Hheap & Htrace & Hchunks).
  { fold a. pose proof (num_batches_le (Py.len a) b Hb ltac:(unfold Py.len; lia)).
    unfold Py.len in *. rewrite (Permutation_length Ha) in *. lia. }
  fold a in Hheap, Hchunks.
  assert (Hload1 : load l w1 = a)
    by (unfold load; rewrite Hheap, lookup_insert_eq; reflexivity).
  assert (Hseg : epoch_segment self l b a0
                   ([EvShuffle l; EvModelTrain]
                    ++ flat_map (batch_events self (is_kelpie self)) bs))
    by (exists a, bs; auto).
  unfold epoch_and_validate. rewrite Hbs.
  rewrite (bind_run _ _ _ b w) by reflexivity.
  rewrite epoch_class, (bind_run _ _ _ _ _ Hrun).
  destruct (due evaluate_every valid_samples e) eqn:Hdue.
  - destruct (validate_run save_path valid_samples w1)
      as (w2 & v & Hval & Hheap2 & Htrace2).
    exists w2, (([EvShuffle l; EvModelTrain]
                 ++ flat_map (batch_events self (is_kelpie self)) bs)
                ++ validation_events save_path v (model_eval (model w1))).
    split; [exact Hval|]. split.
    { unfold load. rewrite Hheap2. fold (load l w1). rewrite Hload1. exact Ha. }
    split; [rewrite Htrace2, Htrace, <- !app_assoc; reflexivity|].
    exists ([EvShuffle l; EvModelTrain]
            ++ flat_map (batch_events self (is_kelpie self)) bs),
           v, (model_eval (model w1)).
    rewrite Hdue. auto.
  - exists w1, (([EvShuffle l; EvModelTrain]
                 ++ flat_map (batch_events self (is_kelpie self)) bs) ++ []).
    split; [reflexivity|]. split; [rewrite Hload1; exact Ha|].
    split; [rewrite Htrace, app_nil_r; reflexivity|].
    exists ([EvShuffle l; EvModelTrain]
            ++ flat_map (batch_events self (is_kelpie self)) bs),
           [], (model w1).
    rewrite Hdue. auto.
Qed.

Lemma epochs_run fuel self l save_path (evaluate_every : Z) valid_samples
    (b : Z) (a0 : ndarray) :
  shuffle_permutes ->
  batch_size self = PInt b -> (1 <= b)%Z -> length a0 < fuel ->
  forall (es : list Z) w,
    load l w ≡ₚ a0 ->
    exists w' segs,
      for_each es (epoch_and_validate fuel self l save_path evaluate_every
                                      valid_samples) w = Ok tt w'
      /\ load l w' ≡ₚ a0
      /\ trace w' = trace w ++ concat segs
      /\ Forall2 (run_segment self l b a0 save_path evaluate_every valid_samples)
                 es segs.
Proof.
  intros Hperm Hbs Hb Hfuel. induction es as [|e es IH]; intros w Hload.
  - exists w, []. cbn. rewrite app_nil_r. auto using Forall2_nil.
  - destruct (epoch_and_validate_run fuel self l save_path evaluate_every
                valid_samples b a0 e w Hperm Hbs Hb Hfuel Hload)
      as (w1 & seg & Hrun & Hload1 & Htrace & Hseg).
    destruct (IH w1 Hload1) as (w2 & segs & Hrun2 & Hload2 & Htrace2 & Hsegs).
    exists w2, (seg :: segs). cbn [for_each].
    rewrite (bind_run _ _ _ _ _ Hrun).
    split; [exact Hrun2|]. split; [exact Hload2|]. split.
    + rewrite Htrace2, Htrace, <- app_assoc. reflexivity.
    + constructor; assumption.
Qed.

Lemma train_rest_run fuel self l save_path (evaluate_every : Z) valid_samples
    (n b : Z) w :
  shuffle_permutes ->
  epochs self = PInt n -> batch_size self = PInt b -> (1 <= b)%Z ->
  length (load l w) < fuel ->
  exists w' segs,
    train_rest fuel self l save_path evaluate_every valid_samples w = Ok tt w'
    /\ load l w' ≡ₚ load l w
    /\ (forall l', l' <> l -> heap w' !! l' = heap w !! l')
    /\ trace w' = trace w ++ [EvModelCuda] ++ concat segs
                  ++ final_save save_path (model w')
    /\ Forall2 (run_segment self l b (load l w) save_path evaluate_every
                            valid_samples)
               (Py.range 1 (n + 1)) segs.
Proof.
  intros Hperm Hn Hbs Hb Hfuel.
  set (w1 := log EvModelCuda (set_model (model_cuda (model w)) w)).
  destruct (epochs_run fuel self l save_path evaluate_every valid_samples b
              (load l w) Hperm Hbs Hb Hfuel (Py.range 1 (n + 1)) w1)
    as (w2 & segs & Hrun & Hload & Htrace & Hsegs); [reflexivity|].
  assert (Hframe : forall l', l' <> l ->
            heap (final (train_rest fuel self l save_path evaluate_every
                                    valid_samples w)) !! l' = heap w !! l').
  { apply (always_train_rest (fun _ => True) l); auto. }
  assert (Hstart :
    train_rest fuel self l save_path evaluate_every valid_samples w
    = match save_path with
      | Some p => save_model p
      | None => ret tt
      end w2).
  { unfold train_rest.
    rewrite (bind_run _ _ _ tt (set_model (model_cuda (model w)) w)) by reflexivity.
    rewrite (bind_run _ _ _ tt w1) by reflexivity.
    rewrite Hn. rewrite (bind_run _ _ _ n w1) by reflexivity.
    rewrite (bind_run _ _ _ _ _ Hrun). reflexivity. }
  rewrite Hstart in Hframe |- *.
  destruct save_path as [p|].
  - exists (log (EvSave p (model w2)) w2), segs.
    split; [reflexivity|]. split; [exact Hload|]. split; [exact Hframe|].
    split; [|exact Hsegs].
    cbn. rewrite Htrace. cbn. rewrite <- !app_assoc. reflexivity.
  - exists w2, segs.
    split; [reflexivity|]. split; [exact Hload|]. split; [exact Hframe|].
    split; [|exact Hsegs].
    rewrite Htrace. cbn. rewrite <- !app_assoc, app_nil_r. reflexivity.
Qed.

Lemma train_run fuel self (train_samples : loc) save_path (evaluate_every : Z)
    valid_samples (n b : Z) w :
  shuffle_permutes ->
  epochs self = PInt n -> batch_size self = PInt b -> (1 <= b)%Z ->
  let a := load train_samples w in
  let l := fresh (dom (heap w)) in
  length a + length (invert_samples a) < fuel ->
  exists w' segs,
    train fuel self train_samples save_path evaluate_every valid_samples w
      = Ok tt w'
    /\ load l w' ≡ₚ a ++ invert_samples a
    /\ trace w' = trace w ++ [EvModelCuda] ++ concat segs
                  ++ final_save save_path (model w')
    /\ Forall2 (run_segment self l b (a ++ invert_samples a) save_path
                            evaluate_every valid_samples)
               (Py.range 1 (n + 1)) segs.
Proof.
  intros Hperm Hn Hbs Hb a l Hfuel. rewrite train_unfold. fold a l.
  set (w1 := set_heap (<[l := a ++ invert_samples a]> (heap w)) w).
  assert (Hload : load l w1 = a ++ invert_samples a)
    by (unfold load, w1; cbn; rewrite lookup_insert_eq; reflexivity).
  destruct (train_rest_run fuel self l save_path evaluate_every valid_samples
              n b w1 Hperm Hn Hbs Hb)
    as (w' & segs & Hrun & Hload' & _ & Htrace & Hsegs).
  { rewrite Hload, length_app. exact Hfuel. }
  rewrite Hload in Hload', Hsegs.
  exists w', segs. auto.
Qed.

Lemma bind_ok_inv {A B} (m : M A) (k : A -> M B) w b w' :
  bind m k w = Ok b w' -> exists a w1, m w = Ok a w1 /\ k a w1 = Ok b w'.
Proof.
  unfold bind. destruct (m w) as [a w1|e w1|w1]; [eauto|discriminate..].
Qed.

Lemma train_ok_ends_with_save fuel self (train_samples : loc) (p : string)
    (evaluate_every : Z) valid_samples w w' :
  train fuel self train_samples (Some p) evaluate_every valid_samples w = Ok tt w' ->
  exists t, trace w' = t ++ [EvSave p (model w')].
Proof.
  rewrite train_unfold. unfold train_rest. intros H.
  apply bind_ok_inv in H as (? & w1 & _ & H).
  apply bind_ok_inv in H as (? & w2 & _ & H).
  apply bind_ok_inv in H as (? & w3 & _ & H).
  apply bind_ok_inv in H as (? & w4 & _ & H).
  injection H as <-. exists (trace w4). reflexivity.
Qed.

Lemma epoch_events_quiet (l : loc) (d : list event) :
  Forall (fun e => epoch_event l e \/ e = EvModelCuda) d ->
  checkpoints d = [] /\ evaluations d = [] /\ (EvModelEval ∉ d).
Proof.
  induction 1 as [|e d He Hd (IH1 & IH2 & IH3)];
    [split; [|split]; [reflexivity..|apply not_elem_of_nil]|].
  assert (He' : match e with
                | EvSave _ _ | EvEval _ | EvModelEval => False
                | _ => True
                end).
  { destruct He as [He| ->]; [destruct e; cbn in He; tauto|exact I]. }
  split; [|split].
  - destruct e; try contradiction; exact IH1.
  - destruct e; try contradiction; exact IH2.
  - intros Hin. apply elem_of_cons in Hin as [<-|Hin]; [exact He'|tauto].
Qed.

Lemma epoch_segment_events self l (b : Z) (a0 : ndarray) (E : list event) :
  epoch_segment self l b a0 E -> Forall (epoch_event l) E.
Proof.
  intros (a & bs & _ & _ & ->). apply Forall_app. split.
  - repeat constructor.
  - apply epoch_event_batch_events.
Qed.

Lemma epoch_segment_quiet self l (b : Z) (a0 : ndarray) (E : list event) :
  epoch_segment self l b a0 E ->
  checkpoints E = [] /\ evaluations E = [] /\ (EvModelEval ∉ E)
  /\ count is_model_train E = 1.
Proof.
  intros HE. pose proof (epoch_segment_events _ _ _ _ _ HE) as Hev.
  destruct (epoch_events_quiet l E) as (H1 & H2 & H3).
  { eapply Forall_impl; [exact Hev|]. cbn. auto. }
  split; [exact H1|]. split; [exact H2|]. split; [exact H3|].
  destruct HE as (a & bs & _ & _ & ->).
  rewrite count_app, count_train_batch_events. reflexivity.
Qed.

Lemma epoch_segment_batches self l (b : Z) (a0 : ndarray) (E : list event) :
  epoch_segment self l b a0 E ->
  exists a, a ≡ₚ a0
    /\ corrupted_batches E = chunks (num_batches (Py.len a0) b) a b 0
    /\ count is_optimizer_step E = num_batches (Py.len a0) b.
Proof.
  intros (a & bs & Ha & Hbs & ->). exists a.
  assert (Hlen : Py.len a = Py.len a0)
    by (unfold Py.len; rewrite (Permutation_length Ha); reflexivity).
  rewrite Hlen in Hbs. split; [exact Ha|]. split.
  - unfold corrupted_batches. rewrite omap_app. cbn [omap].
    fold (corrupted_batches (flat_map (batch_events self (is_kelpie self)) bs)).
    rewrite corrupted_batches_batch_events. exact Hbs.
  - rewrite count_app, count_steps_batch_events. cbn.
    rewrite <- (length_fmap fst), Hbs. apply chunks_length.
Qed.

Lemma corrupted_batches_app (t1 t2 : list event) :
  corrupted_batches (t1 ++ t2) = corrupted_batches t1 ++ corrupted_batches t2.
Proof. apply omap_app. Qed.

Lemma run_segment_batches self l (b : Z) (a0 : ndarray) save_path
    (evaluate_every : Z) valid_samples (e : Z) (seg : list event) :
  run_segment self l b a0 save_path evaluate_every valid_samples e seg ->
  exists a, a ≡ₚ a0
    /\ corrupted_batches seg = chunks (num_batches (Py.len a0) b) a b 0
    /\ count is_optimizer_step seg = num_batches (Py.len a0) b.
Proof.
  intros (E & v & m & HE & ->).
  destruct (epoch_segment_batches _ _ _ _ _ HE) as (a & Ha & Hc & Hs).
  exists a. split; [exact Ha|].
  rewrite corrupted_batches_app, count_app, Hc, Hs.
  destruct (due evaluate_every valid_samples e), save_path;
    cbn; rewrite ?app_nil_r; auto.
Qed.

Lemma chunk_lengths_200_32 (a : ndarray) :
  length a = 200 ->
  length <$> chunks 7 a 32 0 = [32; 32; 32; 32; 32; 32; 8].
Proof.
  intros Hlen. assert (Hl : Py.len a = 200%Z) by (unfold Py.len; lia).
  cbn [chunks fmap list_fmap]. rewrite Hl.
  rewrite !slice_length by (rewrite ?Hl; lia).
  repeat (f_equal; [lia|]). reflexivity.
Qed.

Lemma epoch_batches_run fuel self (b : Z) (l : loc) w :
  shuffle_permutes -> (1 <= b)%Z ->
  num_batches (Py.len (load l w)) b < fuel ->
  exists w' d,
    epoch fuel self b l w = Ok tt w'
    /\ trace w' = trace w ++ d
    /\ load l w' ≡ₚ load l w
    /\ corrupted_batches d
       = chunks (num_batches (Py.len (load l w)) b) (load l w') b 0
    /\ count is_optimizer_step d = num_batches (Py.len (load l w)) b.
Proof.
  intros Hperm Hb Hfuel.
  set (a := (np_random_shuffle (rng w) (load l w)).2).
  assert (Ha : a ≡ₚ load l w) by apply Hperm.
  assert (Hlen : Py.len a = Py.len (load l w))
    by (unfold Py.len; rewrite (Permutation_length Ha); reflexivity).
  destruct (class_epoch_run (is_kelpie self) fuel self b l w Hb)
    as (w' & bs & Hrun & Hheap & Htrace & Hbs).
  { fold a. rewrite Hlen. exact Hfuel. }
  fold a in Hheap, Hbs. rewrite Hlen in Hbs.
  assert (Hload : load l w' = a)
    by (unfold load; rewrite Hheap, lookup_insert_eq; reflexivity).
  exists w', ([EvShuffle l; EvModelTrain]
              ++ flat_map (batch_events self (is_kelpie self)) bs).
  rewrite epoch_class. split; [exact Hrun|]. split; [exact Htrace|].
  split; [rewrite Hload; exact Ha|]. split.
  - rewrite corrupted_batches_app, corrupted_batches_batch_events, Hload.
    exact Hbs.
  - rewrite count_app, count_steps_batch_events. cbn.
    rewrite <- (length_fmap fst), Hbs. apply chunks_length.
Qed.

(** C5: given a Dataset whose [invert_samples] returns one row per input
    row, [train] builds a training set of exactly twice the rows of
    [train_samples]; one epoch over [n] rows with batch size [b >= 1]
    makes exactly [ceil(n / b)] batches, in every epoch of a run; and
    with 100 samples and batch size 32 the training set has 200 rows and
    every epoch makes 7 batches, of 32 rows six times and 8 rows at the
    end. *)
Theorem augmented_training_set_and_batches fuel self (train_samples : loc)
    (save_path : option string) (evaluate_every : Z)
    (valid_samples : option loc) (n b : Z) w :
  shuffle_permutes -> invert_keeps_rows ->
  epochs self = PInt n -> batch_size self = PInt b -> (1 <= b)%Z ->
  let a := load train_samples w in
  let N := num_batches (2 * Py.len a) b in
  2 * length a < fuel ->
  (forall fuel' (l : loc) w0,
      num_batches (Py.len (load l w0)) b < fuel' ->
      exists w1 d,
        epoch fuel' self b l w0 = Ok tt w1
        /\ trace w1 = trace w0 ++ d
        /\ length (corrupted_batches d) = num_batches (Py.len (load l w0)) b
        /\ count is_optimizer_step d = num_batches (Py.len (load l w0)) b
        /\ (b * (Z.of_nat (num_batches (Py.len (load l w0)) b) - 1)
            < Py.len (load l w0)
            <= b * Z.of_nat (num_batches (Py.len (load l w0)) b))%Z)
  /\ exists w' segs,
      train fuel self train_samples save_path evaluate_every valid_samples w
        = Ok tt w'
      /\ load (fresh (dom (heap w))) w' ≡ₚ a ++ invert_samples a
      /\ length (load (fresh (dom (heap w))) w') = 2 * length a
      /\ trace w' = trace w ++ [EvModelCuda] ++ concat segs
                    ++ final_save save_path (model w')
      /\ length segs = Z.to_nat n
      /\ Forall (fun seg => length (corrupted_batches seg) = N
                            /\ count is_optimizer_step seg = N) segs
      /\ (length a = 100 -> b = 32%Z ->
          N = 7
          /\ Forall (fun seg => length <$> corrupted_batches seg
                                = [32; 32; 32; 32; 32; 32; 8]) segs).
Proof.
  intros Hperm Hinv Hn Hbs Hb a N Hfuel. split.
  - intros fuel' l w0 Hfuel'.
    destruct (epoch_batches_run fuel' self b l w0 Hperm Hb Hfuel')
      as (w1 & d & Hrun & Htrace & _ & Hc & Hs).
    exists w1, d. split; [exact Hrun|]. split; [exact Htrace|].
    split; [rewrite Hc; apply chunks_length|]. split; [exact Hs|].
    apply num_batches_ceil; [exact Hb|unfold Py.len; lia].
  - destruct (train_run fuel self train_samples save_path evaluate_every
                valid_samples n b w Hperm Hn Hbs Hb)
      as (w' & segs & Hrun & Hload & Htrace & Hsegs).
    { fold a. rewrite Hinv. lia. }
    fold a in Hload, Hsegs.
    assert (Hlen2 : Py.len (a ++ invert_samples a) = (2 * Py.len a)%Z)
      by (unfold Py.len; rewrite length_app, Hinv; lia).
    assert (Hbatches : Forall (fun seg =>
              exists a', a' ≡ₚ a ++ invert_samples a
                /\ corrupted_batches seg = chunks N a' b 0
                /\ count is_optimizer_step seg = N) segs).
    { clear -Hsegs Hlen2. subst N. rewrite <- Hlen2.
      induction Hsegs as [|e seg es segs Hseg _ IH]; constructor; [|exact IH].
      eapply run_segment_batches, Hseg. }
    exists w', segs. split; [exact Hrun|]. split; [exact Hload|]. split.
    { rewrite (Permutation_length Hload), length_app, Hinv. lia. }
    split; [exact Htrace|]. split.
    { rewrite <- (Forall2_length _ _ _ Hsegs). unfold Py.range.
      rewrite length_fmap, length_seq. f_equal. lia. }
    split.
    { eapply Forall_impl; [exact Hbatches|]. cbn.
      intros seg (a' & _ & Hc & Hs). rewrite Hc, chunks_length. auto. }
    intros H100 ->.
    assert (HN : N = 7).
    { subst N. unfold Py.len. rewrite H100. reflexivity. }
    split; [exact HN|].
    eapply Forall_impl; [exact Hbatches|]. cbn.
    intros seg (a' & Ha' & Hc & _). rewrite Hc, HN.
    apply chunk_lengths_200_32.
    rewrite (Permutation_length Ha'), length_app, Hinv. lia.
Qed.

Lemma count_train_validation_events save_path (v : ndarray) (m : ModelState) :
  count is_model_train (validation_events save_path v m) = 0.
Proof. destruct save_path; reflexivity. Qed.

(** C1: with [evaluate_every = 2], five epochs, a [save_path] and
    [valid_samples], [train] writes exactly three checkpoints: one after
    the second epoch, one after the fourth, and the last one when the
    run ends after the fifth.  And whatever the validation schedule, a run
    with a [save_path] returns with a checkpoint write as its last
    call. *)
Theorem train_checkpoint_writes fuel self (train_samples : loc) (p : string)
    (b : Z) w :
  shuffle_permutes -> batch_size self = PInt b -> (1 <= b)%Z ->
  let a := load train_samples w in
  length a + length (invert_samples a) < fuel ->
  (epochs self = PInt 5 ->
   forall v : loc,
   exists w' d1 d2 d3 m1 m2,
     train fuel self train_samples (Some p) 2 (Some v) w = Ok tt w'
     /\ trace w' = trace w ++ d1 ++ [EvSave p m1] ++ d2 ++ [EvSave p m2]
                           ++ d3 ++ [EvSave p (model w')]
     /\ checkpoints d1 = [] /\ count is_model_train d1 = 2
     /\ checkpoints d2 = [] /\ count is_model_train d2 = 2
     /\ checkpoints d3 = [] /\ count is_model_train d3 = 1
     /\ (forall d, trace w' = trace w ++ d -> length (checkpoints d) = 3))
  /\ (forall (n evaluate_every : Z) (valid_samples : option loc),
        epochs self = PInt n ->
        exists w' d,
          train fuel self train_samples (Some p) evaluate_every valid_samples w
            = Ok tt w'
          /\ trace w' = trace w ++ d ++ [EvSave p (model w')])
  /\ (forall fuel' (evaluate_every : Z) (valid_samples : option loc) w',
        train fuel' self train_samples (Some p) evaluate_every valid_samples w
          = Ok tt w' ->
        exists t, trace w' = t ++ [EvSave p (model w')]).
Proof.
  intros Hperm Hbs Hb a Hfuel. split; [|split].
  - intros Hn v.
    destruct (train_run fuel self train_samples (Some p) 2 (Some v) 5 b w
                Hperm Hn Hbs Hb Hfuel)
      as (w' & segs & Hrun & _ & Htrace & Hsegs).
    change (Py.range 1 (5 + 1)) with [1; 2; 3; 4; 5]%Z in Hsegs.
    apply Forall2_cons_inv_l in Hsegs as (s1 & segs1 & H1 & Hsegs & ->).
    apply Forall2_cons_inv_l in Hsegs as (s2 & segs2 & H2 & Hsegs & ->).
    apply Forall2_cons_inv_l in Hsegs as (s3 & segs3 & H3 & Hsegs & ->).
    apply Forall2_cons_inv_l in Hsegs as (s4 & segs4 & H4 & Hsegs & ->).
    apply Forall2_cons_inv_l in Hsegs as (s5 & segs5 & H5 & Hsegs & ->).
    apply Forall2_nil_inv_l in Hsegs as ->.
    destruct H1 as (E1 & v1 & m1 & HE1 & ->).
    destruct H2 as (E2 & v2 & m2 & HE2 & ->).
    destruct H3 as (E3 & v3 & m3 & HE3 & ->).
    destruct H4 as (E4 & v4 & m4 & HE4 & ->).
    destruct H5 as (E5 & v5 & m5 & HE5 & ->).
    apply epoch_segment_quiet in HE1 as (Hc1 & _ & _ & Ht1).
    apply epoch_segment_quiet in HE2 as (Hc2 & _ & _ & Ht2).
    apply epoch_segment_quiet in HE3 as (Hc3 & _ & _ & Ht3).
    apply epoch_segment_quiet in HE4 as (Hc4 & _ & _ & Ht4).
    apply epoch_segment_quiet in HE5 as (Hc5 & _ & _ & Ht5).
    change (due 2 (Some v) 1) with false in Htrace.
    change (due 2 (Some v) 2) with true in Htrace.
    change (due 2 (Some v) 3) with false in Htrace.
    change (due 2 (Some v) 4) with true in Htrace.
    change (due 2 (Some v) 5) with false in Htrace.
    unfold validation_events, final_save in Htrace.
    cbn [concat] in Htrace. rewrite !app_nil_r in Htrace.
    exists w', ([EvModelCuda] ++ E1 ++ E2 ++ [EvModelEval; EvEval v2]),
           (E3 ++ E4 ++ [EvModelEval; EvEval v4]), E5, m2, m4.
    assert (Htrace' : trace w' =
      trace w ++ ([EvModelCuda] ++ E1 ++ E2 ++ [EvModelEval; EvEval v2])
              ++ [EvSave p m2] ++ (E3 ++ E4 ++ [EvModelEval; EvEval v4])
              ++ [EvSave p m4] ++ E5 ++ [EvSave p (model w')]).
    { rewrite Htrace. rewrite <- !app_assoc. reflexivity. }
    split; [exact Hrun|]. split; [exact Htrace'|].
    split; [rewrite !checkpoints_app, Hc1, Hc2; reflexivity|].
    split; [rewrite !count_app, Ht1, Ht2; reflexivity|].
    split; [rewrite !checkpoints_app, Hc3, Hc4; reflexivity|].
    split; [rewrite !count_app, Ht3, Ht4; reflexivity|].
    split; [exact Hc5|]. split; [exact Ht5|].
    intros d Hd. rewrite Htrace' in Hd. apply app_inv_head in Hd. subst d.
    rewrite !checkpoints_app, Hc1, Hc2, Hc3, Hc4, Hc5. reflexivity.
  - intros n evaluate_every valid_samples Hn.
    destruct (train_run fuel self train_samples (Some p) evaluate_every
                valid_samples n b w Hperm Hn Hbs Hb Hfuel)
      as (w' & segs & Hrun & _ & Htrace & _).
    exists w', ([EvModelCuda] ++ concat segs). split; [exact Hrun|].
    rewrite Htrace. cbn. rewrite <- ?app_assoc. reflexivity.
  - intros fuel' evaluate_every valid_samples w'.
    apply train_ok_ends_with_save.
Qed.

Lemma for_each_ext {A} (xs : list A) (f g : A -> M unit) :
  (forall x w, f x w = g x w) -> forall w, for_each xs f w = for_each xs g w.
Proof.
  intros Hfg. induction xs as [|x xs IH]; intros w; [reflexivity|].
  cbn [for_each]. unfold bind. rewrite Hfg.
  destruct (g x w); [apply IH|reflexivity..].
Qed.

Lemma train_without_valid_samples_any fuel self (train_samples : loc)
    (save_path : option string) (e1 e2 : Z) w :
  train fuel self train_samples save_path e1 None w
  = train fuel self train_samples save_path e2 None w.
Proof.
  rewrite !train_unfold. unfold train_rest.
  set (w1 := set_heap _ w). clearbody w1.
  unfold bind at 1 5. destruct (modify _ w1) as [? w2|? w2|w2]; [|reflexivity..].
  unfold bind at 1 4. destruct (emit _ w2) as [? w3|? w3|w3]; [|reflexivity..].
  unfold bind at 1 3. destruct (as_int _ w3) as [n w4|? w4|w4]; [|reflexivity..].
  unfold bind.
  rewrite (for_each_ext _ _
             (epoch_and_validate fuel self (fresh (dom (heap w))) save_path e2 None)).
  - reflexivity.
  - intros e w5. unfold epoch_and_validate, due.
    rewrite bool_decide_eq_false_2 by (intros H; apply H; reflexivity).
    rewrite !andb_false_r. reflexivity.
Qed.

Lemma segments_without_validation self l (b : Z) (a0 : ndarray) save_path
    (evaluate_every : Z) (es : list Z) (segs : list (list event)) :
  Forall2 (run_segment self l b a0 save_path evaluate_every None) es segs ->
  Forall (fun e => epoch_event l e \/ e = EvModelCuda) (concat segs).
Proof.
  induction 1 as [|e seg es segs Hseg _ IH]; [apply Forall_nil_2|].
  cbn [concat]. apply Forall_app. split; [|exact IH].
  destruct Hseg as (E & v & m & HE & ->).
  replace (due evaluate_every None e) with false.
  - rewrite app_nil_r. eapply Forall_impl;
      [eapply epoch_segment_events, HE|cbn; auto].
  - unfold due.
    rewrite bool_decide_eq_false_2 by (intros H; apply H; reflexivity).
    rewrite andb_false_r. reflexivity.
Qed.

(** C10: with [evaluate_every > 0] and [valid_samples = None], [train]
    returns without raising: it never runs the evaluator, never switches
    the model to evaluation mode and writes no intermediate checkpoint;
    with a [save_path] its only checkpoint write is the final one, and
    without one it writes none.  The run is the very run made with
    validation disabled. *)
Theorem train_skips_validation_without_valid_samples fuel self
    (train_samples : loc) (save_path : option string) (evaluate_every : Z)
    (n b : Z) w :
  shuffle_permutes ->
  epochs self = PInt n -> batch_size self = PInt b -> (1 <= b)%Z ->
  (0 < evaluate_every)%Z ->
  let a := load train_samples w in
  length a + length (invert_samples a) < fuel ->
  (exists w' d,
     train fuel self train_samples save_path evaluate_every None w = Ok tt w'
     /\ trace w' = trace w ++ d ++ final_save save_path (model w')
     /\ checkpoints d = [] /\ evaluations d = [] /\ (EvModelEval ∉ d)
     /\ checkpoints (d ++ final_save save_path (model w'))
        = match save_path with Some p => [(p, model w')] | None => [] end)
  /\ (forall fuel',
        train fuel' self train_samples save_path evaluate_every None w
        = train fuel' self train_samples save_path (-1) None w).
Proof.
  intros Hperm Hn Hbs Hb Hpos a Hfuel. split.
  - destruct (train_run fuel self train_samples save_path evaluate_every None
                n b w Hperm Hn Hbs Hb Hfuel)
      as (w' & segs & Hrun & _ & Htrace & Hsegs).
    set (l := fresh (dom (heap w))) in *.
    assert (Hev : Forall (fun e => epoch_event l e \/ e = EvModelCuda)
                         ([EvModelCuda] ++ concat segs)).
    { apply Forall_app. split.
      - constructor; [right; reflexivity|constructor].
      - eapply segments_without_validation, Hsegs. }
    apply epoch_events_quiet in Hev as (Hc & He & Hm).
    exists w', ([EvModelCuda] ++ concat segs). split; [exact Hrun|].
    split; [rewrite Htrace, <- !app_assoc; reflexivity|].
    split; [exact Hc|]. split; [exact He|]. split; [exact Hm|].
    rewrite checkpoints_app, Hc. destruct save_path; reflexivity.
  - intros fuel'. apply train_without_valid_samples_any.
Qed.

End Runs.

(** ** Further properties of the initializers and of whole runs *)

Section More.

Context {C : Collaborators}.
Implicit Types (self : PairwiseRankingOptimizer) (w : world).

Lemma getitem_run (d : gmap string value) (k : string) (v : value) w :
  d !! k = Some v -> getitem d k w = Ok v w.
Proof. intros H. unfold getitem. rewrite H. reflexivity. Qed.

Lemma init_run (hyperparameters : gmap string value) (vb : bool)
    (bs lr ep mg nr rw : value) w :
  hyperparameters !! BATCH_SIZE = Some bs ->
  hyperparameters !! LEARNING_RATE = Some lr ->
  hyperparameters !! EPOCHS = Some ep ->
  hyperparameters !! MARGIN = Some mg ->
  hyperparameters !! NEGATIVE_SAMPLES_RATIO = Some nr ->
  hyperparameters !! REGULARIZER_WEIGHT = Some rw ->
  PairwiseRankingOptimizer_init hyperparameters vb w
  = Ok {| cls := PairwiseRanking; verbose := vb; batch_size := bs;
          learning_rate := lr; epochs := ep; margin := mg;
          negative_samples_ratio := nr; regularizer_weight := rw |}
       {| heap := heap w; rng := rng w; model := model w;
          optim := Adam (model w) lr;
          trace := trace w ++ [EvNewCorruptionEngine; EvNewLoss mg;
                               EvNewAdam lr; EvNewL2 rw] |}.
Proof.
  intros H1 H2 H3 H4 H5 H6. unfold PairwiseRankingOptimizer_init, Optimizer_init.
  rewrite (bind_run _ _ _ vb w) by reflexivity.
  rewrite (bind_run _ _ _ _ _ (getitem_run _ _ _ w H1)).
  rewrite (bind_run _ _ _ _ _ (getitem_run _ _ _ w H2)).
  rewrite (bind_run _ _ _ _ _ (getitem_run _ _ _ w H3)).
  rewrite (bind_run _ _ _ _ _ (getitem_run _ _ _ w H4)).
  rewrite (bind_run _ _ _ _ _ (getitem_run _ _ _ w H5)).
  rewrite (bind_run _ _ _ _ _ (getitem_run _ _ _ w H6)).
  destruct w as [h g m o t]. run. rewrite <- !app_assoc. reflexivity.
Qed.


(** X2: the Kelpie initializer succeeds on the same mappings, with the
    same attributes; it first builds Adam, as the base class does, and
    then replaces it: the optimizer it leaves is plain SGD over the
    model's parameters with the configured learning rate. *)
Theorem kelpie_init_replaces_adam_by_sgd (hyperparameters : gmap string value)
    (vb : bool) (bs lr ep mg nr rw : value) w :
  hyperparameters !! BATCH_SIZE = Some bs ->
  hyperparameters !! LEARNING_RATE = Some lr ->
  hyperparameters !! EPOCHS = Some ep ->
  hyperparameters !! MARGIN = Some mg ->
  hyperparameters !! NEGATIVE_SAMPLES_RATIO = Some nr ->
  hyperparameters !! REGULARIZER_WEIGHT = Some rw ->
  exists self w',
    KelpiePairwiseRankingOptimizer_init hyperparameters vb w = Ok self w'
    /\ cls self = KelpiePairwiseRanking
    /\ (batch_size self, learning_rate self, epochs self, margin self,
        negative_samples_ratio self, regularizer_weight self)
       = (bs, lr, ep, mg, nr, rw)
    /\ optim w' = SGD (model w) lr
    /\ model w' = model w /\ heap w' = heap w /\ rng w' = rng w
    /\ trace w' = trace w ++ [EvNewCorruptionEngine; EvNewLoss mg;
                              EvNewAdam lr; EvNewL2 rw; EvNewSGD lr].
Proof.
  intros H1 H2 H3 H4 H5 H6. unfold KelpiePairwiseRankingOptimizer_init.
  rewrite (bind_run _ _ _ _ _ (init_run _ vb bs lr ep mg nr rw w H1 H2 H3 H4 H5 H6)).
  rewrite (bind_run _ _ _ _ _ (getitem_run _ _ _ _ H2)).
  destruct w as [h g m o t]. run. do 2 eexists. split; [reflexivity|].
  cbn. rewrite <- !app_assoc. repeat split.
Qed.

Lemma range_empty (a b : Z) : (b <= a)%Z -> Py.range a b = [].
Proof.
  intros H. unfold Py.range. replace (Z.to_nat (b - a)) with 0 by lia. reflexivity.
Qed.

(** X3: every checkpoint [train] writes goes to [save_path], and without
    a [save_path] it writes none, for every bound on the loop and however
    the run ends. *)
Theorem train_writes_only_to_save_path fuel self (train_samples : loc)
    (save_path : option string) (evaluate_every : Z)
    (valid_samples : option loc) w :
  exists d,
    trace (final (train fuel self train_samples save_path evaluate_every
                        valid_samples w)) = trace w ++ d
    /\ (forall p m, EvSave p m ∈ d -> save_path = Some p)
    /\ (save_path = None -> checkpoints d = []).
Proof.
  rewrite train_unfold. set (l := fresh (dom (heap w))).
  edestruct (always_train_rest
               (fun e => match e with
                         | EvSave p _ => save_path = Some p
                         | _ => True
                         end) l) as ((d & Ht & Hd) & _).
  - intros e He. destruct e; cbn in *; tauto.
  - exact I.
  - intros p m Hp. exact Hp.
  - intros; split; intros; exact I.
  - exists d. split; [exact Ht|]. rewrite Forall_forall in Hd. split.
    + intros p m Hin. exact (Hd _ Hin).
    + intros Hnone. clear Ht. induction d as [|e d IH]; [reflexivity|].
      assert (He : match e with EvSave p _ => save_path = Some p | _ => True end)
        by (apply Hd; left).
      assert (IH' : checkpoints d = [])
        by (apply IH; intros e' He'; apply Hd; right; exact He').
      destruct e; try exact IH'. congruence.
Qed.

(** X4: with an epoch count of zero or less, [train] runs no epoch,
    whatever the batch size: it builds the training set, moves the model,
    and, if there is a [save_path], writes the untrained parameters as
    its one checkpoint. *)
Theorem train_without_epochs fuel self (train_samples : loc)
    (save_path : option string) (evaluate_every : Z)
    (valid_samples : option loc) (n : Z) w :
  epochs self = PInt n -> (n <= 0)%Z ->
  exists w',
    train fuel self train_samples save_path evaluate_every valid_samples w
      = Ok tt w'
    /\ model w' = model_cuda (model w)
    /\ trace w' = trace w ++ [EvModelCuda]
                  ++ final_save save_path (model_cuda (model w)).
Proof.
  intros Hn Hle. rewrite train_unfold. unfold train_rest.
  set (w1 := set_heap _ w).
  rewrite (bind_run _ _ _ tt (set_model (model_cuda (model w1)) w1)) by reflexivity.
  rewrite (bind_run _ _ _ tt
             (log EvModelCuda (set_model (model_cuda (model w1)) w1)))
    by reflexivity.
  rewrite Hn.
  rewrite (bind_run _ _ _ n
             (log EvModelCuda (set_model (model_cuda (model w1)) w1)))
    by reflexivity.
  rewrite range_empty by lia. cbn [for_each].
  rewrite (bind_run _ _ _ tt
             (log EvModelCuda (set_model (model_cuda (model w1)) w1)))
    by reflexivity.
  destruct save_path as [p|]; eexists; (split; [reflexivity|]); split;
    try reflexivity; cbn; rewrite <- ?app_assoc; reflexivity.
Qed.

(** X5: a float for the epoch count makes [range] raise [TypeError]: the
    run aborts after the training set is built and the model moved,
    before any epoch, and no checkpoint is written even with a
    [save_path]. *)
Theorem train_rejects_float_epochs fuel self (train_samples : loc)
    (save_path : option string) (evaluate_every : Z)
    (valid_samples : option loc) (x : Float) w :
  epochs self = PFloat x ->
  exists w',
    train fuel self train_samples save_path evaluate_every valid_samples w
      = Raise TypeError w'
    /\ trace w' = trace w ++ [EvModelCuda]
    /\ load (fresh (dom (heap w))) w'
       = load train_samples w ++ invert_samples (load train_samples w).
Proof.
  intros Hx. rewrite train_unfold. unfold train_rest.
  set (w1 := set_heap _ w).
  rewrite (bind_run _ _ _ tt (set_model (model_cuda (model w1)) w1)) by reflexivity.
  rewrite (bind_run _ _ _ tt
             (log EvModelCuda (set_model (model_cuda (model w1)) w1)))
    by reflexivity.
  rewrite Hx. eexists. split; [reflexivity|]. split; [reflexivity|].
  unfold load; cbn. rewrite lookup_insert_eq. reflexivity.
Qed.

Lemma chunks_concat (a : ndarray) (b : Z) :
  (1 <= b)%Z ->
  forall k (start : Z),
    (0 <= start)%Z -> k = num_batches (Py.len a - start) b ->
    concat (chunks k a b start) = drop (Z.to_nat start) a.
Proof.
  intros Hb. induction k as [|k IH]; intros start Hs Hk.
  - assert (Py.len a - start <= 0)%Z.
    { destruct (Z.le_gt_cases (Py.len a - start) 0) as [?|Hgt]; [assumption|].
      rewrite num_batches_step in Hk by lia. discriminate. }
    cbn. symmetry. apply drop_ge. unfold Py.len in *. lia.
  - assert (Hlt : (0 < Py.len a - start)%Z).
    { destruct (Z.le_gt_cases (Py.len a - start) 0) as [Hle|?]; [|lia].
      rewrite num_batches_done in Hk by lia. discriminate. }
    rewrite num_batches_step in Hk by lia. injection Hk as Hk.
    cbn [chunks concat]. rewrite (IH (start + b)%Z) by (try lia; rewrite Hk; f_equal; lia).
    rewrite slice_in_range by lia.
    destruct (Z.le_gt_cases (start + b) (Py.len a)) as [Hin|Hout].
    + rewrite Z.min_l by lia.
      replace (Z.to_nat (start + b)) with (Z.to_nat start + Z.to_nat b) by lia.
      rewrite <- drop_drop.
      replace (Z.to_nat (start + b - start)) with (Z.to_nat b) by lia.
      apply take_drop.
    + rewrite Z.min_r by lia.
      rewrite (drop_ge a (Z.to_nat (start + b))) by (unfold Py.len in *; lia).
      rewrite app_nil_r. apply take_ge.
      rewrite length_drop. unfold Py.len. lia.
Qed.

Lemma chunks_lookup (a : ndarray) (b : Z) k (start : Z) i :
  i < k ->
  chunks k a b start !! i
  = Some (Py.slice a (start + Z.of_nat i * b)
                   (Z.min (start + Z.of_nat i * b + b) (Py.len a))).
Proof.
  revert start i. induction k as [|k IH]; intros start i Hi; [lia|].
  destruct i as [|i]; cbn [chunks lookup list_lookup].
  - rewrite Z.mul_0_l, Z.add_0_r. reflexivity.
  - rewrite IH by lia. do 2 f_equal; lia.
Qed.

(** X6: in an epoch with batch size [b >= 1] the batches, in the order
    they are made, are the shuffled training set cut into consecutive
    pieces: put end to end they give back the array, so every row is in
    exactly one batch; no batch is empty, none has more than [b] rows,
    and every batch but the last has exactly [b]. *)
Theorem epoch_batches_partition_training_set fuel self (b : Z) (l : loc) w :
  shuffle_permutes -> (1 <= b)%Z ->
  num_batches (Py.len (load l w)) b < fuel ->
  exists w' d,
    epoch fuel self b l w = Ok tt w'
    /\ trace w' = trace w ++ d
    /\ load l w' ≡ₚ load l w
    /\ concat (corrupted_batches d) = load l w'
    /\ forall i (o : ndarray),
         corrupted_batches d !! i = Some o ->
         (1 <= Py.len o <= b)%Z
         /\ (S i < length (corrupted_batches d) -> Py.len o = b).
Proof.
  intros Hperm Hb Hfuel.
  destruct (epoch_batches_run fuel self b l w Hperm Hb Hfuel)
    as (w' & d & Hrun & Htrace & Hload & Hc & _).
  assert (Hlen : Py.len (load l w') = Py.len (load l w))
    by (unfold Py.len; rewrite (Permutation_length Hload); reflexivity).
  rewrite <- Hlen in Hc.
  set (a := load l w') in *. set (N := num_batches (Py.len a) b) in *.
  exists w', d. split; [exact Hrun|]. split; [exact Htrace|].
  split; [exact Hload|]. split.
  - rewrite Hc. rewrite (chunks_concat a b Hb N 0); try lia; [reflexivity|].
    subst N. f_equal. lia.
  - intros i o Hi. rewrite Hc in Hi |- *. rewrite chunks_length.
    assert (HiN : i < N).
    { apply lookup_lt_Some in Hi. rewrite chunks_length in Hi. exact Hi. }
    rewrite chunks_lookup in Hi by exact HiN. injection Hi as <-.
    pose proof (num_batches_ceil (Py.len a) b Hb ltac:(unfold Py.len; lia)) as Hceil.
    fold N in Hceil.
    assert (Hstart : (Z.of_nat i * b < Py.len a)%Z) by nia.
    assert (Hsl : Py.len (Py.slice a (0 + Z.of_nat i * b)
                            (Z.min (0 + Z.of_nat i * b + b) (Py.len a)))
                  = Z.min b (Py.len a - Z.of_nat i * b)).
    { unfold Py.len at 1. rewrite slice_length by lia. lia. }
    rewrite Hsl. split; [lia|].
    intros Hnext. assert (Z.of_nat i * b + b <= Py.len a)%Z by nia. lia.
Qed.

Lemma load_epoch_start (l : loc) w :
  load l (epoch_start l w) = (np_random_shuffle (rng w) (load l w)).2.
Proof. unfold load, epoch_start; cbn. rewrite lookup_insert_eq. reflexivity. Qed.

Lemma bind_out_of_fuel {A B} (m : M A) (k : A -> M B) w w' :
  m w = OutOfFuel w' -> bind m k w = OutOfFuel w'.
Proof. intros H. unfold bind. rewrite H. reflexivity. Qed.

Lemma while_with_diverges sync self l (b : Z) :
  (b <= 0)%Z ->
  forall fuel (start : Z) w,
    (start <= 0)%Z -> (0 < Py.len (load l w))%Z ->
    exists w' bs,
      while_with sync fuel self l b start w = OutOfFuel w'
      /\ heap w' = heap w
      /\ trace w' = trace w ++ flat_map (batch_events self sync) bs
      /\ length bs = fuel.
Proof.
  intros Hb. induction fuel as [|fuel IH]; intros start w Hs Hlen.
  - exists w, []. cbn. rewrite app_nil_r. auto.
  - rewrite while_with_unroll by lia.
    assert (Hload : load l (after_batch sync self l b start w) = load l w)
      by (unfold load; rewrite after_batch_heap; reflexivity).
    destruct (IH (start + b)%Z (after_batch sync self l b start w))
      as (w' & bs & Hrun & Hheap & Htrace & Hbs); [lia|rewrite Hload; lia|].
    exists w', (batch_at self l b start w :: bs).
    split; [exact Hrun|]. split; [rewrite Hheap; apply after_batch_heap|].
    split; [|cbn; lia].
    rewrite Htrace, after_batch_trace, <- app_assoc. reflexivity.
Qed.

Lemma range_cons (a b : Z) :
  (a < b)%Z -> Py.range a b = a :: Py.range (a + 1) b.
Proof.
  intros H. unfold Py.range.
  replace (Z.to_nat (b - a)) with (S (Z.to_nat (b - (a + 1)))) by lia.
  cbn [seq fmap list_fmap]. rewrite Z.add_0_r. f_equal.
  rewrite <- seq_shift, <- list_fmap_compose. apply list_fmap_ext.
  intros i x _. cbn. lia.
Qed.

(** X7: with a batch size of zero or less and a non-empty training set,
    [train] never gets past its first epoch: [batch_start] never reaches
    the length of the array, so the loop makes one more optimizer step
    for every unit of the bound, and no checkpoint is ever written. *)
Theorem train_hangs_on_nonpositive_batch_size fuel self (train_samples : loc)
    (save_path : option string) (evaluate_every : Z)
    (valid_samples : option loc) (n b : Z) w :
  shuffle_permutes ->
  epochs self = PInt n -> (1 <= n)%Z ->
  batch_size self = PInt b -> (b <= 0)%Z ->
  load train_samples w <> [] ->
  exists w' d,
    train fuel self train_samples save_path evaluate_every valid_samples w
      = OutOfFuel w'
    /\ trace w' = trace w ++ d
    /\ checkpoints d = [] /\ evaluations d = []
    /\ count is_model_train d = 1
    /\ count is_optimizer_step d = fuel.
Proof.
  intros Hperm Hn Hn1 Hbs Hb Hne. rewrite train_unfold.
  set (l := fresh (dom (heap w))).
  set (a := load train_samples w ++ invert_samples (load train_samples w)).
  set (w1 := set_heap (<[l := a]> (heap w)) w).
  set (w2 := log EvModelCuda (set_model (model_cuda (model w1)) w1)).
  assert (Hload2 : load l w2 = a)
    by (unfold load; cbn; rewrite lookup_insert_eq; reflexivity).
  assert (Ha : (0 < Py.len (load l (epoch_start l w2)))%Z).
  { rewrite load_epoch_start, Hload2. unfold Py.len.
    rewrite (Permutation_length (Hperm (rng w2) a)).
    subst a. rewrite length_app.
    destruct (load train_samples w); [congruence|cbn; lia]. }
  destruct (while_with_diverges (is_kelpie self) self l b Hb fuel 0 (epoch_start l w2)
              ltac:(lia) Ha) as (w' & bs & Hrun & _ & Htrace & Hlen).
  exists w', ([EvModelCuda] ++ [EvShuffle l; EvModelTrain]
              ++ flat_map (batch_events self (is_kelpie self)) bs).
  split.
  - unfold train_rest.
    rewrite (bind_run _ _ _ tt (set_model (model_cuda (model w1)) w1)) by reflexivity.
    rewrite (bind_run _ _ _ tt w2) by reflexivity.
    rewrite Hn. rewrite (bind_run _ _ _ n w2) by reflexivity.
    apply bind_out_of_fuel. rewrite range_cons by lia. cbn [for_each].
    apply bind_out_of_fuel. unfold epoch_and_validate. rewrite Hbs.
    rewrite (bind_run _ _ _ b w2) by reflexivity.
    apply bind_out_of_fuel. rewrite epoch_class, class_epoch_unfold. exact Hrun.
  - split.
    { rewrite Htrace. unfold epoch_start; cbn. rewrite <- !app_assoc. reflexivity. }
    destruct (epoch_events_quiet l
                ([EvModelCuda] ++ [EvShuffle l; EvModelTrain]
                 ++ flat_map (batch_events self (is_kelpie self)) bs))
      as (Hc & He & _).
    { apply Forall_app. split; [constructor; [right; reflexivity|constructor]|].
      apply Forall_app. split.
      - constructor; [left; reflexivity|].
        constructor; [left; exact I|constructor].
      - eapply Forall_impl; [apply (epoch_event_batch_events l)|].
        intros e He. left. exact He. }
    split; [exact Hc|]. split; [exact He|].
    rewrite !count_app, count_train_batch_events, count_steps_batch_events.
    cbn. split; [reflexivity|exact Hlen].
Qed.

Lemma class_epoch_empty sync fuel self (b : Z) (l : loc) w :
  shuffle_permutes -> load l w = [] -> 1 <= fuel ->
  class_epoch sync fuel self b l w = Ok tt (epoch_start l w)
  /\ load l (epoch_start l w) = [].
Proof.
  intros Hperm Hempty Hfuel.
  assert (Hload : load l (epoch_start l w) = []).
  { rewrite load_epoch_start. apply Permutation_nil_r.
    rewrite <- Hempty. apply Hperm. }
  split; [|exact Hload]. rewrite class_epoch_unfold.
  destruct fuel as [|fuel]; [lia|]. cbn [while_with].
  rewrite (bind_run _ _ _ _ _ (eq_refl : gets (load l) (epoch_start l w) = Ok _ _)).
  rewrite Hload. reflexivity.
Qed.

Lemma quiet_validation_events save_path (v : ndarray) (m : ModelState) :
  corrupted_batches (validation_events save_path v m) = []
  /\ count is_optimizer_step (validation_events save_path v m) = 0
  /\ count is_update_embeddings (validation_events save_path v m) = 0
  /\ count is_forward (validation_events save_path v m) = 0
  /\ count is_model_train (validation_events save_path v m) = 0.
Proof. destruct save_path; repeat split. Qed.

Lemma epochs_empty_run fuel self l save_path (evaluate_every : Z) valid_samples
    (b : Z) :
  shuffle_permutes -> batch_size self = PInt b -> 1 <= fuel ->
  forall (es : list Z) w,
    load l w = [] ->
    exists w' d,
      for_each es (epoch_and_validate fuel self l save_path evaluate_every
                                      valid_samples) w = Ok tt w'
      /\ load l w' = []
      /\ trace w' = trace w ++ d
      /\ corrupted_batches d = []
      /\ count is_optimizer_step d = 0
      /\ count is_model_train d = length es.
Proof.
  intros Hperm Hbs Hfuel. induction es as [|e es IH]; intros w Hempty.
  - exists w, []. rewrite app_nil_r.
    split; [reflexivity|]. split; [exact Hempty|]. repeat split.
  - destruct (class_epoch_empty (is_kelpie self) fuel self b l w Hperm Hempty Hfuel)
      as [Hrun Hload1].
    assert (Hbody : exists w2 d2,
      epoch_and_validate fuel self l save_path evaluate_every valid_samples e w
        = Ok tt w2
      /\ load l w2 = []
      /\ trace w2 = trace w ++ [EvShuffle l; EvModelTrain] ++ d2
      /\ corrupted_batches d2 = [] /\ count is_optimizer_step d2 = 0
      /\ count is_model_train d2 = 0).
    { unfold epoch_and_validate. rewrite Hbs.
      rewrite (bind_run _ _ _ b w) by reflexivity.
      rewrite epoch_class, (bind_run _ _ _ _ _ Hrun).
      destruct (due evaluate_every valid_samples e).
      - destruct (validate_run save_path valid_samples (epoch_start l w))
          as (w2 & v & Hval & Hheap2 & Htrace2).
        destruct (quiet_validation_events save_path v
                    (model_eval (model (epoch_start l w))))
          as (Hq1 & Hq2 & _ & _ & Hq3).
        eexists w2, _. split; [exact Hval|].
        split; [unfold load; rewrite Hheap2; exact Hload1|].
        split; [rewrite Htrace2; unfold epoch_start; cbn;
                rewrite <- !app_assoc; reflexivity|].
        auto.
      - exists (epoch_start l w), []. split; [reflexivity|].
        split; [exact Hload1|].
        split; [unfold epoch_start; cbn; rewrite <- !app_assoc; reflexivity|].
        auto. }
    destruct Hbody as (w2 & d2 & Hrun2 & Hload2 & Htrace2 & Hc2 & Hs2 & Ht2).
    destruct (IH w2 Hload2) as (w3 & d3 & Hrun3 & Hload3 & Htrace3 & Hc3 & Hs3 & Ht3).
    exists w3, (([EvShuffle l; EvModelTrain] ++ d2) ++ d3). cbn [for_each].
    rewrite (bind_run _ _ _ _ _ Hrun2).
    split; [exact Hrun3|]. split; [exact Hload3|].
    split; [rewrite Htrace3, Htrace2, <- !app_assoc; reflexivity|].
    rewrite !corrupted_batches_app, !count_app, Hc2, Hc3, Hs2, Hs3, Ht2, Ht3.
    cbn. auto.
Qed.

(** X8: on an empty [train_samples] (whose inversion is empty too) every
    epoch of [train] shuffles, sets the training mode and makes no batch
    at all, so the run returns without a single call to the corruption
    engine or optimizer step, for every integer batch size, zero and
    negative ones included. *)
Theorem train_on_empty_samples fuel self (train_samples : loc)
    (save_path : option string) (evaluate_every : Z)
    (valid_samples : option loc) (n b : Z) w :
  shuffle_permutes ->
  load train_samples w = [] -> invert_samples [] = [] ->
  epochs self = PInt n -> batch_size self = PInt b -> 1 <= fuel ->
  exists w' d,
    train fuel self train_samples save_path evaluate_every valid_samples w
      = Ok tt w'
    /\ trace w' = trace w ++ d
    /\ corrupted_batches d = []
    /\ count is_optimizer_step d = 0
    /\ count is_model_train d = Z.to_nat n.
Proof.
  intros Hperm Hempty Hinv Hn Hbs Hfuel. rewrite train_unfold.
  set (l := fresh (dom (heap w))). rewrite Hempty, Hinv. cbn [app].
  set (w1 := set_heap (<[l := []]> (heap w)) w).
  set (w2 := log EvModelCuda (set_model (model_cuda (model w1)) w1)).
  assert (Hload2 : load l w2 = [])
    by (unfold load; cbn; rewrite lookup_insert_eq; reflexivity).
  destruct (epochs_empty_run fuel self l save_path evaluate_every valid_samples
              b Hperm Hbs Hfuel (Py.range 1 (n + 1)) w2 Hload2)
    as (w3 & d & Hrun & _ & Htrace & Hc & Hs & Ht).
  assert (Hlen : length (Py.range 1 (n + 1)) = Z.to_nat n).
  { unfold Py.range. rewrite length_fmap, length_seq. f_equal. lia. }
  rewrite Hlen in Ht.
  unfold train_rest.
  rewrite (bind_run _ _ _ tt (set_model (model_cuda (model w1)) w1)) by reflexivity.
  rewrite (bind_run _ _ _ tt w2) by reflexivity.
  rewrite Hn. rewrite (bind_run _ _ _ n w2) by reflexivity.
  rewrite (bind_run _ _ _ _ _ Hrun).
  destruct save_path as [p|].
  - exists (log (EvSave p (model w3)) w3), ([EvModelCuda] ++ d ++ [EvSave p (model w3)]).
    split; [reflexivity|].
    split; [cbn; rewrite Htrace; cbn; rewrite <- !app_assoc; reflexivity|].
    rewrite !corrupted_batches_app, !count_app, Hc, Hs, Ht. cbn.
    repeat split; lia.
  - exists w3, ([EvModelCuda] ++ d).
    split; [reflexivity|].
    split; [rewrite Htrace; cbn; rewrite <- !app_assoc; reflexivity|].
    rewrite !corrupted_batches_app, !count_app, Hc, Hs, Ht. cbn.
    repeat split; lia.
Qed.

Lemma range_snoc (a m : Z) :
  (0 <= m)%Z -> Py.range a (a + m + 1) = Py.range a (a + m) ++ [(a + m)%Z].
Proof.
  intros Hm. unfold Py.range.
  replace (Z.to_nat (a + m + 1 - a)) with (S (Z.to_nat m)) by lia.
  replace (Z.to_nat (a + m - a)) with (Z.to_nat m) by lia.
  rewrite seq_S, fmap_app. cbn. do 3 f_equal. lia.
Qed.

Lemma range_length (a b : Z) : length (Py.range a b) = Z.to_nat (b - a).
Proof. unfold Py.range. rewrite length_fmap. apply length_seq. Qed.

Lemma validations_app (evaluate_every : Z) valid_samples (es1 es2 : list Z) :
  validations evaluate_every valid_samples (es1 ++ es2)
  = validations evaluate_every valid_samples es1
    + validations evaluate_every valid_samples es2.
Proof. induction es1 as [|e es1 IH]; cbn; [reflexivity|]. rewrite IH. lia. Qed.

Lemma div_succ (k d : Z) :
  (0 < d)%Z -> (0 <= k)%Z ->
  ((k + 1) / d = k / d + (if ((k + 1) mod d =? 0)%Z then 1 else 0))%Z.
Proof.
  intros Hd Hk.
  pose proof (Z.div_mod (k + 1) d ltac:(lia)) as Hdm.
  pose proof (Z.mod_pos_bound (k + 1) d Hd) as Hr.
  destruct (Z.eqb_spec ((k + 1) mod d) 0) as [H0|Hn0].
  - assert (Hq : ((k + 1) / d - 1 = k / d)%Z)
      by (apply (Z.div_unique k d _ (d - 1)); lia).
    lia.
  - assert (Hq : ((k + 1) / d = k / d)%Z)
      by (apply (Z.div_unique k d _ ((k + 1) mod d - 1)); lia).
    lia.
Qed.

Lemma validations_range (evaluate_every : Z) (v : loc) (k : nat) :
  (0 < evaluate_every)%Z ->
  validations evaluate_every (Some v) (Py.range 1 (Z.of_nat k + 1))
  = Z.to_nat (Z.of_nat k / evaluate_every).
Proof.
  intros Hev. induction k as [|k IH]; [reflexivity|].
  replace (Z.of_nat (S k) + 1)%Z with (1 + Z.of_nat k + 1)%Z by lia.
  rewrite range_snoc by lia.
  replace (1 + Z.of_nat k)%Z with (Z.of_nat k + 1)%Z by lia.
  rewrite validations_app, IH. cbn [validations]. unfold due.
  apply Z.ltb_lt in Hev as Hev'. rewrite Hev'.
  rewrite bool_decide_eq_true_2 by discriminate. cbn [andb].
  replace (Z.of_nat (S k)) with (Z.of_nat k + 1)%Z by lia.
  rewrite (div_succ (Z.of_nat k) evaluate_every) by lia.
  assert (0 <= Z.of_nat k / evaluate_every)%Z by (apply Z.div_pos; lia).
  destruct ((Z.of_nat k + 1) mod evaluate_every =? 0)%Z; lia.
Qed.

Lemma segments_validations self l (b : Z) (a0 : ndarray) save_path
    (evaluate_every : Z) valid_samples (es : list Z) (segs : list (list event)) :
  Forall2 (run_segment self l b a0 save_path evaluate_every valid_samples)
          es segs ->
  length (evaluations (concat segs))
  = validations evaluate_every valid_samples es
  /\ length (checkpoints (concat segs))
     = match save_path with
       | Some _ => validations evaluate_every valid_samples es
       | None => 0
       end.
Proof.
  induction 1 as [|e seg es segs Hseg _ [IH1 IH2]];
    [split; [reflexivity|destruct save_path; reflexivity]|].
  destruct Hseg as (E & v & m & HE & ->).
  apply epoch_segment_quiet in HE as (Hc & He & _ & _).
  cbn [concat validations].
  rewrite !evaluations_app, !checkpoints_app, !length_app, Hc, He, IH1, IH2.
  destruct (due evaluate_every valid_samples e), save_path; cbn; split; lia.
Qed.

(** X9: with validation every [evaluate_every > 0] epochs on given
    [valid_samples], a run of [n] epochs runs the evaluator exactly
    [floor(n / evaluate_every)] times; with a [save_path] it writes one
    checkpoint per validation and one more at the end, and without a
    [save_path] none. *)
Theorem train_validation_and_checkpoint_counts fuel self (train_samples : loc)
    (save_path : option string) (evaluate_every : Z) (v : loc) (n b : Z) w :
  shuffle_permutes ->
  epochs self = PInt n -> (0 <= n)%Z ->
  batch_size self = PInt b -> (1 <= b)%Z ->
  (0 < evaluate_every)%Z ->
  let a := load train_samples w in
  length a + length (invert_samples a) < fuel ->
  exists w' d,
    train fuel self train_samples save_path evaluate_every (Some v) w = Ok tt w'
    /\ trace w' = trace w ++ d
    /\ length (evaluations d) = Z.to_nat (n / evaluate_every)
    /\ length (checkpoints d)
       = match save_path with
         | Some _ => Z.to_nat (n / evaluate_every) + 1
         | None => 0
         end.
Proof.
  intros Hperm Hn Hn0 Hbs Hb Hev a Hfuel.
  destruct (train_run fuel self train_samples save_path evaluate_every (Some v)
              n b w Hperm Hn Hbs Hb Hfuel)
    as (w' & segs & Hrun & _ & Htrace & Hsegs).
  apply segments_validations in Hsegs as [He Hc].
  pose proof (validations_range evaluate_every v (Z.to_nat n) Hev) as Hv.
  rewrite Z2Nat.id in Hv by exact Hn0. rewrite Hv in He, Hc.
  exists w', ([EvModelCuda] ++ concat segs ++ final_save save_path (model w')).
  split; [exact Hrun|]. split; [exact Htrace|].
  rewrite !evaluations_app, !checkpoints_app, !length_app, He, Hc.
  destruct save_path; cbn; split; lia.
Qed.

Lemma for_each_app {A} (xs ys : list A) (f : A -> M unit) w :
  for_each (xs ++ ys) f w = bind (for_each xs f) (fun _ => for_each ys f) w.
Proof.
  revert w. induction xs as [|x xs IH]; intros w; [reflexivity|].
  cbn [app for_each]. unfold bind.
  destruct (f x w) as [[] w1|e w1|w1]; [rewrite IH|..]; reflexivity.
Qed.

Lemma trace_log (e : event) w : trace (log e w) = trace w ++ [e].
Proof. reflexivity. Qed.

Lemma model_log (e : event) w : model (log e w) = model w.
Proof. reflexivity. Qed.

Lemma trace_set_model (m : ModelState) w : trace (set_model m w) = trace w.
Proof. reflexivity. Qed.

Lemma model_set_model (m : ModelState) w : model (set_model m w) = m.
Proof. reflexivity. Qed.

Lemma validate_some_run (p : string) valid_samples w :
  validate (Some p) valid_samples w
  = Ok tt (log (EvSave p (model_eval (model w)))
             (log (EvEval (from_option (fun l => load l w) [] valid_samples))
                (log EvModelEval (set_model (model_eval (model w)) w)))).
Proof. destruct w as [h g m o t]. reflexivity. Qed.

Lemma epoch_and_validate_due_run fuel self l (p : string) (evaluate_every : Z)
    valid_samples (b : Z) (a0 : ndarray) (e : Z) w :
  shuffle_permutes ->
  batch_size self = PInt b -> (1 <= b)%Z -> length a0 < fuel ->
  load l w ≡ₚ a0 ->
  due evaluate_every valid_samples e = true ->
  exists w' t v,
    epoch_and_validate fuel self l (Some p) evaluate_every valid_samples e w
      = Ok tt w'
    /\ trace w' = trace w ++ t ++ [EvModelEval; EvEval v; EvSave p (model w')].
Proof.
  intros Hperm Hbs Hb Hfuel Hload Hdue.
  set (a := (np_random_shuffle (rng w) (load l w)).2).
  assert (Ha : a ≡ₚ a0) by (etransitivity; [apply Hperm|exact Hload]).
  destruct (class_epoch_run (is_kelpie self) fuel self b l w Hb)
    as (w1 & bs & Hrun & _ & Htrace & _).
  { fold a. pose proof (num_batches_le (Py.len a) b Hb ltac:(unfold Py.len; lia)).
    unfold Py.len in *. rewrite (Permutation_length Ha) in *. lia. }
  unfold epoch_and_validate. rewrite Hbs, Hdue.
  rewrite (bind_run _ _ _ b w) by reflexivity.
  rewrite epoch_class, (bind_run _ _ _ _ _ Hrun), validate_some_run.
  eexists _, ([EvShuffle l; EvModelTrain]
              ++ flat_map (batch_events self (is_kelpie self)) bs),
           (from_option (fun l0 => load l0 w1) [] valid_samples).
  split; [reflexivity|].
  rewrite !trace_log, !model_log, trace_set_model, model_set_model, Htrace.
  rewrite <- !app_assoc. reflexivity.
Qed.

(** X10: when validation is due after the last epoch and there is a
    [save_path], the run ends with two writes in a row of the same
    parameters to that path: the one of the last validation and the final
    one, which no training step separates. *)
Theorem train_final_write_repeats_last_validation fuel self (train_samples : loc)
    (p : string) (evaluate_every : Z) (v : loc) (n b : Z) w :
  shuffle_permutes ->
  epochs self = PInt n -> (1 <= n)%Z ->
  batch_size self = PInt b -> (1 <= b)%Z ->
  (0 < evaluate_every)%Z -> (n mod evaluate_every = 0)%Z ->
  let a := load train_samples w in
  length a + length (invert_samples a) < fuel ->
  exists w' t ve,
    train fuel self train_samples (Some p) evaluate_every (Some v) w = Ok tt w'
    /\ trace w' = trace w ++ t
                  ++ [EvModelEval; EvEval ve;
                      EvSave p (model w'); EvSave p (model w')].
Proof.
  intros Hperm Hn Hn1 Hbs Hb Hev Hmod a Hfuel. rewrite train_unfold. fold a.
  set (l := fresh (dom (heap w))).
  set (a0 := a ++ invert_samples a).
  set (w1 := set_heap (<[l := a0]> (heap w)) w).
  set (w2 := log EvModelCuda (set_model (model_cuda (model w1)) w1)).
  assert (Hload2 : load l w2 = a0)
    by (unfold load; cbn; rewrite lookup_insert_eq; reflexivity).
  assert (Hfuel0 : length a0 < fuel) by (subst a0; rewrite length_app; exact Hfuel).
  destruct (epochs_run fuel self l (Some p) evaluate_every (Some v) b a0
              Hperm Hbs Hb Hfuel0 (Py.range 1 (1 + (n - 1))) w2)
    as (w3 & segs & Hrun3 & Hload3 & Htrace3 & _); [rewrite Hload2; reflexivity|].
  assert (Hdue : due evaluate_every (Some v) (1 + (n - 1)) = true).
  { unfold due. replace (1 + (n - 1))%Z with n by lia. rewrite Hmod.
    apply Z.ltb_lt in Hev. rewrite Hev.
    rewrite bool_decide_eq_true_2 by discriminate. reflexivity. }
  destruct (epoch_and_validate_due_run fuel self l p evaluate_every (Some v) b a0
              (1 + (n - 1)) w3 Hperm Hbs Hb Hfuel0 Hload3 Hdue)
    as (w4 & t & ve & Hrun4 & Htrace4).
  exists (log (EvSave p (model w4)) w4), ([EvModelCuda] ++ concat segs ++ t), ve.
  split.
  - unfold train_rest.
    rewrite (bind_run _ _ _ tt (set_model (model_cuda (model w1)) w1)) by reflexivity.
    rewrite (bind_run _ _ _ tt w2) by reflexivity.
    rewrite Hn. rewrite (bind_run _ _ _ n w2) by reflexivity.
    replace (n + 1)%Z with (1 + (n - 1) + 1)%Z by lia.
    rewrite range_snoc by lia.
    assert (Hloop : for_each (Py.range 1 (1 + (n - 1)) ++ [(1 + (n - 1))%Z])
                      (epoch_and_validate fuel self l (Some p) evaluate_every
                                          (Some v)) w2 = Ok tt w4).
    { rewrite for_each_app, (bind_run _ _ _ _ _ Hrun3). cbn [for_each].
      rewrite (bind_run _ _ _ _ _ Hrun4). reflexivity. }
    rewrite (bind_run _ _ _ _ _ Hloop). reflexivity.
  - rewrite trace_log, model_log, Htrace4, Htrace3.
    unfold w2. rewrite trace_log, trace_set_model. unfold w1. cbn [trace set_heap].
    rewrite <- !app_assoc. reflexivity.
Qed.

Lemma count_forward_batch_events self sync
    (bs : list (ndarray * (ndarray * ndarray))) :
  count is_forward (flat_map (batch_events self sync) bs) = 2 * length bs.
Proof.
  induction bs as [|x bs IH]; [reflexivity|].
  cbn [flat_map]. rewrite count_app, IH. destruct sync; cbn; lia.
Qed.

Lemma count_updates_batch_events_class self sync
    (bs : list (ndarray * (ndarray * ndarray))) :
  count is_update_embeddings (flat_map (batch_events self sync) bs)
  = if sync then length bs else 0.
Proof.
  induction bs as [|x bs IH]; [destruct sync; reflexivity|].
  cbn [flat_map]. rewrite count_app, IH. destruct sync; reflexivity.
Qed.

Lemma segments_counts self l (b : Z) (a0 : ndarray) save_path
    (evaluate_every : Z) valid_samples (es : list Z) (segs : list (list event)) :
  Forall2 (run_segment self l b a0 save_path evaluate_every valid_samples)
          es segs ->
  let N := num_batches (Py.len a0) b in
  count is_optimizer_step (concat segs) = length es * N
  /\ count is_forward (concat segs) = 2 * (length es * N)
  /\ count is_update_embeddings (concat segs)
     = if is_kelpie self then length es * N else 0.
Proof.
  intros Hsegs N.
  induction Hsegs as [|e seg es segs Hseg _ (IH1 & IH2 & IH3)];
    [destruct (is_kelpie self); repeat split|].
  destruct Hseg as (E & v & m & (a & bs & Ha & Hbs & ->) & ->).
  assert (Hlen : length bs = N).
  { rewrite <- (length_fmap fst), Hbs, chunks_length. subst N.
    unfold Py.len. rewrite (Permutation_length Ha). reflexivity. }
  destruct (quiet_validation_events save_path v m) as (_ & Hq1 & Hq2 & Hq3 & _).
  cbn [concat length].
  rewrite !count_app, IH1, IH2, IH3, count_steps_batch_events,
    count_forward_batch_events, count_updates_batch_events_class, Hlen.
  destruct (due evaluate_every valid_samples e);
    rewrite ?Hq1, ?Hq2, ?Hq3; destruct (is_kelpie self); cbn; repeat split; lia.
Qed.

(** X11: a run of [n] epochs over [m] samples with batch size [b >= 1]
    makes exactly [n * ceil(2m / b)] optimizer steps and twice as many
    forward passes through the model, validations included or not. *)
Theorem train_step_count fuel self (train_samples : loc)
    (save_path : option string) (evaluate_every : Z)
    (valid_samples : option loc) (n b : Z) w :
  shuffle_permutes -> invert_keeps_rows ->
  epochs self = PInt n -> batch_size self = PInt b -> (1 <= b)%Z ->
  let a := load train_samples w in
  2 * length a < fuel ->
  exists w' d,
    train fuel self train_samples save_path evaluate_every valid_samples w
      = Ok tt w'
    /\ trace w' = trace w ++ d
    /\ count is_optimizer_step d
       = Z.to_nat n * num_batches (2 * Py.len a) b
    /\ count is_forward d
       = 2 * (Z.to_nat n * num_batches (2 * Py.len a) b).
Proof.
  intros Hperm Hinv Hn Hbs Hb a Hfuel.
  destruct (train_run fuel self train_samples save_path evaluate_every
              valid_samples n b w Hperm Hn Hbs Hb)
    as (w' & segs & Hrun & _ & Htrace & Hsegs).
  { fold a. rewrite Hinv. lia. }
  fold a in Hsegs. apply segments_counts in Hsegs as (Hs & Hf & _).
  rewrite range_length in Hs, Hf.
  replace (n + 1 - 1)%Z with n in Hs, Hf by lia.
  assert (Hlen2 : Py.len (a ++ invert_samples a) = (2 * Py.len a)%Z)
    by (unfold Py.len; rewrite length_app, Hinv; lia).
  rewrite Hlen2 in Hs, Hf.
  exists w', ([EvModelCuda] ++ concat segs ++ final_save save_path (model w')).
  split; [exact Hrun|]. split; [exact Htrace|].
  rewrite !count_app, Hs, Hf. destruct save_path; cbn; split; lia.
Qed.

(** X12: in a whole run of the base class [model.update_embeddings()] is
    never called; in a run of the Kelpie class it is called exactly as
    many times as the optimizer steps. *)
Theorem train_syncs_embeddings_by_class fuel self (train_samples : loc)
    (save_path : option string) (evaluate_every : Z)
    (valid_samples : option loc) (n b : Z) w :
  shuffle_permutes ->
  epochs self = PInt n -> batch_size self = PInt b -> (1 <= b)%Z ->
  let a := load train_samples w in
  length a + length (invert_samples a) < fuel ->
  exists w' d,
    train fuel self train_samples save_path evaluate_every valid_samples w
      = Ok tt w'
    /\ trace w' = trace w ++ d
    /\ count is_update_embeddings d
       = match cls self with
         | PairwiseRanking => 0
         | KelpiePairwiseRanking => count is_optimizer_step d
         end.
Proof.
  intros Hperm Hn Hbs Hb a Hfuel.
  destruct (train_run fuel self train_samples save_path evaluate_every
              valid_samples n b w Hperm Hn Hbs Hb Hfuel)
    as (w' & segs & Hrun & _ & Htrace & Hsegs).
  apply segments_counts in Hsegs as (Hs & _ & Hu).
  exists w', ([EvModelCuda] ++ concat segs ++ final_save save_path (model w')).
  split; [exact Hrun|]. split; [exact Htrace|].
  rewrite !count_app, Hs, Hu. unfold is_kelpie.
  destruct (cls self), save_path; cbn; lia.
Qed.

Lemma mode_after_app (m : bool) (t1 t2 : list event) :
  mode_after m (t1 ++ t2) = mode_after (mode_after m t1) t2.
Proof.
  revert m. induction t1 as [|e t1 IH]; intros m; [reflexivity|].
  destruct e; cbn; apply IH.
Qed.

Lemma well_moded_app (m : bool) (t1 t2 : list event) :
  well_moded m (t1 ++ t2)
  = well_moded m t1 && well_moded (mode_after m t1) t2.
Proof.
  revert m. induction t1 as [|e t1 IH]; intros m; [reflexivity|].
  destruct e; cbn; rewrite ?IH, ?andb_assoc; reflexivity.
Qed.

Lemma well_moded_batch_events self sync
    (bs : list (ndarray * (ndarray * ndarray))) :
  well_moded true (flat_map (batch_events self sync) bs) = true
  /\ mode_after true (flat_map (batch_events self sync) bs) = true.
Proof.
  induction bs as [|x bs [IH1 IH2]]; [split; reflexivity|].
  cbn [flat_map]. rewrite well_moded_app, mode_after_app.
  assert (Hb : well_moded true (batch_events self sync x) = true
               /\ mode_after true (batch_events self sync x) = true)
    by (destruct sync; split; reflexivity).
  destruct Hb as [-> ->]. rewrite IH1, IH2. split; reflexivity.
Qed.

Lemma well_moded_segments self l (b : Z) (a0 : ndarray) save_path
    (evaluate_every : Z) valid_samples (es : list Z) (segs : list (list event)) :
  Forall2 (run_segment self l b a0 save_path evaluate_every valid_samples)
          es segs ->
  forall m, well_moded m (concat segs) = true.
Proof.
  induction 1 as [|e seg es segs Hseg _ IH]; intros m; [reflexivity|].
  destruct Hseg as (E & v & mdl & (a & bs & _ & _ & ->) & ->).
  destruct (well_moded_batch_events self (is_kelpie self) bs) as [Hw Hm].
  cbn [concat]. rewrite !well_moded_app, !mode_after_app, IH, andb_true_r.
  change (well_moded m [EvShuffle l; EvModelTrain]) with true.
  change (mode_after m [EvShuffle l; EvModelTrain]) with true.
  rewrite Hw, Hm.
  destruct (due evaluate_every valid_samples e), save_path; reflexivity.
Qed.

(** X13: in a run of [train], whatever mode the model starts in, every
    forward pass of training is made after [model.train()] with no
    [model.eval()] in between, and every run of the evaluator after
    [model.eval()] with no [model.train()] in between: a validation never
    leaves the next epoch training in evaluation mode. *)
Theorem train_modes_are_consistent fuel self (train_samples : loc)
    (save_path : option string) (evaluate_every : Z)
    (valid_samples : option loc) (n b : Z) w :
  shuffle_permutes ->
  epochs self = PInt n -> batch_size self = PInt b -> (1 <= b)%Z ->
  let a := load train_samples w in
  length a + length (invert_samples a) < fuel ->
  exists w' d,
    train fuel self train_samples save_path evaluate_every valid_samples w
      = Ok tt w'
    /\ trace w' = trace w ++ d
    /\ forall training : bool, well_moded training d = true.
Proof.
  intros Hperm Hn Hbs Hb a Hfuel.
  destruct (train_run fuel self train_samples save_path evaluate_every
              valid_samples n b w Hperm Hn Hbs Hb Hfuel)
    as (w' & segs & Hrun & _ & Htrace & Hsegs).
  exists w', ([EvModelCuda] ++ concat segs ++ final_save save_path (model w')).
  split; [exact Hrun|]. split; [exact Htrace|]. intros training.
  rewrite !well_moded_app, (well_moded_segments _ _ _ _ _ _ _ _ _ Hsegs).
  destruct save_path; reflexivity.
Qed.




Lemma while_with_engine_batches sync self l (b : Z) :
  (1 <= b)%Z ->
  forall fuel (start : Z) w,
    num_batches (Py.len (load l w) - start) b < fuel ->
    exists w' bs,
      while_with sync fuel self l b start w = Ok tt w'
      /\ trace w' = trace w ++ flat_map (batch_events self sync) bs
      /\ Forall (fun x => exists g,
                   x.2 = (corrupt_samples g x.1 (negative_samples_ratio self)).2)
                bs.
Proof.
  intros Hb. induction fuel as [|fuel IH]; intros start w Hfuel; [lia|].
  destruct (Z.ltb_spec start (Py.len (load l w))) as [Hlt|Hge].
  - rewrite while_with_unroll by assumption.
    rewrite num_batches_step in Hfuel by lia.
    assert (Hload : load l (after_batch sync self l b start w) = load l w)
      by (unfold load; rewrite after_batch_heap; reflexivity).
    destruct (IH (start + b)%Z (after_batch sync self l b start w))
      as (w' & bs & Hrun & Htrace & Hbs).
    { rewrite Hload.
      replace (Py.len (load l w) - (start + b))%Z
        with (Py.len (load l w) - start - b)%Z by lia. lia. }
    exists w', (batch_at self l b start w :: bs).
    split; [exact Hrun|]. split.
    + rewrite Htrace, after_batch_trace, <- app_assoc. reflexivity.
    + constructor; [|exact Hbs]. exists (rng w). reflexivity.
  - cbn [while_with]. unfold bind, gets.
    apply Z.ltb_ge in Hge. rewrite Hge.
    exists w, []. cbn. rewrite app_nil_r. auto.
Qed.

(** X15: in an epoch of either class, the two batches forwarded through
    the model in a step are the positive and the negative batch that the
    corruption engine returned for the slice of that very step, with the
    configured negative-sample ratio, the positive one first. *)
Theorem epoch_trains_on_engine_output fuel self (b : Z) (l : loc) w :
  shuffle_permutes -> (1 <= b)%Z ->
  num_batches (Py.len (load l w)) b < fuel ->
  exists w' (bs : list (ndarray * (ndarray * ndarray))),
    epoch fuel self b l w = Ok tt w'
    /\ trace w' = trace w ++ [EvShuffle l; EvModelTrain] ++
         flat_map (fun x =>
           [EvCorrupt x.1 (negative_samples_ratio self); EvZeroGrad;
            EvForward x.2.1; EvForward x.2.2; EvNewTensor [(-1)%Z];
            EvBackward; EvOptimizerStep]
           ++ match cls self with
              | PairwiseRanking => []
              | KelpiePairwiseRanking => [EvUpdateEmbeddings]
              end) bs
    /\ Forall (fun x => exists g,
                 x.2 = (corrupt_samples g x.1 (negative_samples_ratio self)).2)
              bs.
Proof.
  intros Hperm Hb Hfuel.
  destruct (while_with_engine_batches (is_kelpie self) self l b Hb fuel 0
              (epoch_start l w))
    as (w' & bs & Hrun & Htrace & Hbs).
  { rewrite load_epoch_start, Z.sub_0_r. unfold Py.len.
    rewrite (Permutation_length (Hperm (rng w) (load l w))). exact Hfuel. }
  exists w', bs. rewrite epoch_class, class_epoch_unfold.
  split; [exact Hrun|]. split; [|exact Hbs].
  rewrite Htrace. unfold epoch_start. rewrite trace_log, trace_set_model, trace_log.
  cbn [trace set_heap set_rng]. rewrite <- !app_assoc. cbn [app]. do 3 f_equal.
  unfold is_kelpie, batch_events. destruct (cls self); reflexivity.
Qed.

End More.


(** ** Runs of the stub *)

Section StubRuns.

#[local] Existing Instance Stub.collaborators.

Example slice_inside : Py.slice [1; 2; 3; 4; 5] 1 3 = [2; 3].
Proof. reflexivity. Qed.

Example slice_last_batch : Py.slice [1; 2; 3; 4; 5] 4 (Z.min (4 + 2) 5) = [5].
Proof. reflexivity. Qed.

Example slice_from_the_end : Py.slice [1; 2; 3; 4; 5] (-2) 5 = [4; 5].
Proof. reflexivity. Qed.

Example slice_past_the_end : Py.slice [1; 2; 3; 4; 5] 7 9 = [].
Proof. reflexivity. Qed.

Example range_of_five_epochs : Py.range 1 (5 + 1) = [1; 2; 3; 4; 5]%Z.
Proof. reflexivity. Qed.

Example stub_init :
  match PairwiseRankingOptimizer_init Stub.hyperparameters true Stub.world0 with
  | Ok self w' =>
      self = Stub.self
      /\ trace w' = [EvNewCorruptionEngine; EvNewLoss (PFloat 2%Z);
                     EvNewAdam (PFloat 1%Z); EvNewL2 (PFloat 0%Z)]
  | _ => False
  end.
Proof. vm_compute. split; reflexivity. Qed.

Example stub_checkpoints :
  checkpoints
    (trace (final (train 10 Stub.self 1 (Some "ckpt") 2 (Some 1%positive)
                         Stub.world0)))
  = [("ckpt", 6); ("ckpt", 12); ("ckpt", 15)].
Proof. vm_compute. reflexivity. Qed.

Example stub_kelpie_epoch :
  trace (final (epoch 10 Stub.kelpie 2 1 Stub.world0))
  = [EvShuffle 1; EvModelTrain;
     EvCorrupt [(3, 1, 1); (2, 0, 3)]%Z (PInt 1); EvZeroGrad;
     EvForward [(3, 1, 1); (2, 0, 3)]%Z; EvForward [(3, 1, 2); (2, 0, 4)]%Z;
     EvNewTensor [(-1)%Z]; EvBackward; EvOptimizerStep; EvUpdateEmbeddings;
     EvCorrupt [(1, 0, 2)]%Z (PInt 1); EvZeroGrad;
     EvForward [(1, 0, 2)]%Z; EvForward [(1, 0, 3)]%Z;
     EvNewTensor [(-1)%Z]; EvBackward; EvOptimizerStep; EvUpdateEmbeddings].
Proof. vm_compute. reflexivity. Qed.

(** A float for the epoch count is refused by [range], once the training
    set is built and the model moved; a batch size of 0 never advances
    [batch_start], so the loop of the first epoch runs until the bound. *)
Example stub_float_epochs :
  match train 10 Stub.float_epochs 1 None (-1) None Stub.world0 with
  | Raise TypeError w' => trace w' = [EvModelCuda]
  | _ => False
  end.
Proof. vm_compute. reflexivity. Qed.

Example stub_empty_batches :
  match train 10 Stub.empty_batches 1 (Some "ckpt") (-1) None Stub.world0 with
  | OutOfFuel w' => checkpoints (trace w') = []
  | _ => False
  end.
Proof. vm_compute. reflexivity. Qed.

End StubRuns.

(** ** The theorems at work on the stub *)

Lemma stub_shuffle_permutes : @shuffle_permutes Stub.collaborators.
Proof. intros g a. apply reverse_Permutation. Qed.

Lemma stub_invert_keeps_rows : @invert_keeps_rows Stub.collaborators.
Proof. intros a. apply length_fmap. Qed.

Lemma train_checkpoint_writes_witness :
  exists w',
    train 10 Stub.self 1 (Some "ckpt") 2 (Some 1%positive) Stub.world0 = Ok tt w'
    /\ forall d, trace w' = trace Stub.world0 ++ d -> length (checkpoints d) = 3.
Proof.
  destruct (train_checkpoint_writes 10 Stub.self 1 "ckpt" 2 Stub.world0
              stub_shuffle_permutes eq_refl ltac:(lia)
              ltac:(vm_compute; lia)) as [H _].
  destruct (H eq_refl 1%positive)
    as (w' & d1 & d2 & d3 & m1 & m2 & Hrun & _ & _ & _ & _ & _ & _ & _ & Hn).
  exists w'. split; [exact Hrun|exact Hn].
Defined.

Lemma kelpie_epoch_syncs_after_every_step_witness :
  exists w',
    KelpiePairwiseRankingOptimizer_epoch 10 Stub.self 2 1 Stub.world0 = Ok tt w'
    /\ forall d, trace w' = trace Stub.world0 ++ d ->
                 count is_update_embeddings d = 2.
Proof.
  destruct (kelpie_epoch_syncs_after_every_step 10 Stub.self 2 1 Stub.world0
              ltac:(lia) ltac:(vm_compute; lia))
    as (w' & bs & Hrun & _ & _ & Hn).
  exists w'. split; [exact Hrun|exact Hn].
Defined.

Lemma augmented_training_set_and_batches_witness :
  exists (w' : @world Stub.collaborators)
         (segs : list (list (@event Stub.collaborators))),
    train 500 Stub.self32 1 None (-1) None Stub.world100 = Ok tt w'
    /\ length (load (fresh (dom (heap Stub.world100))) w') = 200
    /\ length segs = 1
    /\ Forall (fun seg => length <$> corrupted_batches seg
                          = [32; 32; 32; 32; 32; 32; 8]) segs.
Proof.
  destruct (augmented_training_set_and_batches 500 Stub.self32 1 None (-1) None
              1 32 Stub.world100 stub_shuffle_permutes stub_invert_keeps_rows
              eq_refl eq_refl ltac:(lia) ltac:(vm_compute; lia))
    as (_ & w' & segs & Hrun & _ & Hlen & _ & Hsegs & _ & Hscen).
  exists w', segs. split; [exact Hrun|]. split; [exact Hlen|].
  split; [exact Hsegs|]. apply Hscen; reflexivity.
Defined.

Lemma extract_batch_slice_witness :
  exists original_batch : ndarray,
    Py.len original_batch = 1%Z
    /\ original_batch !! 0 = Stub.samples !! 2.
Proof.
  destruct (extract_batch_slice Stub.self 1 2 2 Stub.world0
              ltac:(vm_compute; split; [discriminate|reflexivity]) ltac:(lia))
    as (o & _ & _ & Hrows & Hlen & _).
  exists o. split; [exact Hlen|]. apply (Hrows 0). vm_compute. reflexivity.
Defined.

Lemma train_never_evaluates_when_disabled_witness :
  evaluations
    (trace (final (train 10 Stub.self 1 (Some "ckpt") (-1) (Some 1%positive)
                         Stub.world0)))
  = evaluations (trace Stub.world0).
Proof.
  destruct (train_never_evaluates_when_disabled 10 Stub.self 1 (Some "ckpt")
              (-1) (Some 1%positive) Stub.world0 ltac:(lia))
    as (d & _ & _ & _ & H).
  exact H.
Defined.

Lemma init_requires_every_key_witness :
  exists k,
    Stub.incomplete !! k = None
    /\ PairwiseRankingOptimizer_init Stub.incomplete true Stub.world0
       = Raise (KeyError k) Stub.world0.
Proof.
  destruct (proj1 (init_requires_every_key Stub.incomplete true Stub.world0)
              "margin"
              ltac:(do 3 apply list_elem_of_further; apply list_elem_of_here)
              ltac:(vm_compute; reflexivity))
    as (k & _ & Hnone & Hraise & _).
  exists k. split; [exact Hnone|exact Hraise].
Defined.

Lemma train_leaves_caller_arrays_witness :
  heap (final (train 10 Stub.self 1 (Some "ckpt") 2 (Some 1%positive)
                     Stub.world0)) !! 1%positive
  = heap Stub.world0 !! 1%positive.
Proof.
  exact (proj1 (train_leaves_caller_arrays 10 Stub.self 1 (Some "ckpt") 2
                  (Some 1%positive) Stub.world0
                  (ex_intro _ Stub.samples eq_refl))).
Defined.

Lemma train_skips_validation_without_valid_samples_witness :
  exists w' d,
    train 10 Stub.self 1 (Some "ckpt") 2 None Stub.world0 = Ok tt w'
    /\ trace w' = trace Stub.world0 ++ d ++ [EvSave "ckpt" (model w')]
    /\ checkpoints d = [] /\ evaluations d = [].
Proof.
  destruct (train_skips_validation_without_valid_samples 10 Stub.self 1
              (Some "ckpt") 2 5 2 Stub.world0 stub_shuffle_permutes
              eq_refl eq_refl ltac:(lia) ltac:(lia) ltac:(vm_compute; lia))
    as ((w' & d & Hrun & Htrace & Hc & He & _) & _).
  exists w', d. auto.
Defined.

(** C3 (as stated) fails: on the stub, construction builds no tensor at
    all, and the first [step_on_batch] call builds the target itself. *)
Lemma target_not_fixed_at_construction :
  tensors_built
    (trace (final (PairwiseRankingOptimizer_init Stub.hyperparameters true
                                                 Stub.world0))) = []
  /\ tensors_built
       (trace (final (step_on_batch Stub.self Stub.samples Stub.samples
                                    Stub.world0))) = [[(-1)%Z]]
  /\ ~ target_fixed_at_construction Stub.hyperparameters true Stub.world0
         Stub.samples Stub.samples.
Proof.
  split; [vm_compute; reflexivity|]. split; [vm_compute; reflexivity|].
  unfold target_fixed_at_construction. vm_compute. intros [H _]. discriminate H.
Qed.

(** ** The further properties at work on the stub *)


Lemma train_writes_only_to_save_path_witness :
  exists d,
    trace (final (train 10 Stub.self 1 None 2 (Some 1%positive) Stub.world0))
    = trace Stub.world0 ++ d
    /\ checkpoints d = [].
Proof.
  destruct (train_writes_only_to_save_path 10 Stub.self 1 None 2
              (Some 1%positive) Stub.world0) as (d & Htrace & _ & Hnone).
  exists d. split; [exact Htrace|]. apply Hnone. reflexivity.
Defined.

Lemma kelpie_init_replaces_adam_by_sgd_witness :
  exists self w',
    KelpiePairwiseRankingOptimizer_init Stub.hyperparameters true Stub.world0
    = Ok self w'
    /\ cls self = KelpiePairwiseRanking
    /\ optim w' = SGD (model Stub.world0) (PFloat 1%Z).
Proof.
  destruct (kelpie_init_replaces_adam_by_sgd Stub.hyperparameters true
              (PInt 2) (PFloat 1%Z) (PInt 5) (PFloat 2%Z) (PInt 1) (PFloat 0%Z)
              Stub.world0
              ltac:(vm_compute; reflexivity) ltac:(vm_compute; reflexivity)
              ltac:(vm_compute; reflexivity) ltac:(vm_compute; reflexivity)
              ltac:(vm_compute; reflexivity) ltac:(vm_compute; reflexivity))
    as (self & w' & Hrun & Hcls & _ & Hoptim & _).
  exists self, w'. auto.
Defined.

Lemma train_without_epochs_witness :
  exists w',
    train 10 Stub.no_epochs 1 (Some "ckpt") 2 (Some 1%positive) Stub.world0
    = Ok tt w'
    /\ trace w' = trace Stub.world0 ++ [EvModelCuda]
                  ++ final_save (Some "ckpt") (model_cuda (model Stub.world0)).
Proof.
  destruct (train_without_epochs 10 Stub.no_epochs 1 (Some "ckpt") 2
              (Some 1%positive) 0 Stub.world0 eq_refl ltac:(lia))
    as (w' & Hrun & _ & Htrace).
  exists w'. auto.
Defined.

Lemma train_rejects_float_epochs_witness :
  exists w',
    train 10 Stub.float_epochs 1 (Some "ckpt") 2 None Stub.world0
    = Raise TypeError w'
    /\ trace w' = trace Stub.world0 ++ [EvModelCuda].
Proof.
  destruct (train_rejects_float_epochs 10 Stub.float_epochs 1 (Some "ckpt") 2
              None 5%Z Stub.world0 eq_refl)
    as (w' & Hrun & Htrace & _).
  exists w'. auto.
Defined.

Lemma epoch_batches_partition_training_set_witness :
  exists w' d,
    epoch 10 Stub.self 2 1 Stub.world0 = Ok tt w'
    /\ trace w' = trace Stub.world0 ++ d
    /\ concat (corrupted_batches d) = load 1 w'.
Proof.
  destruct (epoch_batches_partition_training_set 10 Stub.self 2 1 Stub.world0
              stub_shuffle_permutes ltac:(lia) ltac:(vm_compute; lia))
    as (w' & d & Hrun & Htrace & _ & Hcat & _).
  exists w', d. auto.
Defined.

Lemma train_hangs_on_nonpositive_batch_size_witness :
  exists w' d,
    train 10 Stub.empty_batches 1 (Some "ckpt") (-1) None Stub.world0
    = OutOfFuel w'
    /\ trace w' = trace Stub.world0 ++ d
    /\ checkpoints d = []
    /\ count is_optimizer_step d = 10.
Proof.
  destruct (train_hangs_on_nonpositive_batch_size 10 Stub.empty_batches 1
              (Some "ckpt") (-1) None 1 0 Stub.world0 stub_shuffle_permutes
              eq_refl ltac:(lia) eq_refl ltac:(lia)
              ltac:(vm_compute; discriminate))
    as (w' & d & Hrun & Htrace & Hc & _ & _ & Hs).
  exists w', d. auto.
Defined.

Lemma train_on_empty_samples_witness :
  exists w' d,
    train 10 Stub.empty_batches 1 None (-1) None Stub.world_empty = Ok tt w'
    /\ trace w' = trace Stub.world_empty ++ d
    /\ count is_optimizer_step d = 0
    /\ count is_model_train d = 1.
Proof.
  destruct (train_on_empty_samples 10 Stub.empty_batches 1 None (-1) None 1 0
              Stub.world_empty stub_shuffle_permutes
              ltac:(vm_compute; reflexivity) eq_refl eq_refl eq_refl ltac:(lia))
    as (w' & d & Hrun & Htrace & _ & Hs & Ht).
  exists w', d. auto.
Defined.

Lemma train_validation_and_checkpoint_counts_witness :
  exists w' d,
    train 10 Stub.self 1 (Some "ckpt") 2 (Some 1%positive) Stub.world0 = Ok tt w'
    /\ trace w' = trace Stub.world0 ++ d
    /\ length (evaluations d) = 2
    /\ length (checkpoints d) = 3.
Proof.
  destruct (train_validation_and_checkpoint_counts 10 Stub.self 1 (Some "ckpt")
              2 1 5 2 Stub.world0 stub_shuffle_permutes eq_refl ltac:(lia)
              eq_refl ltac:(lia) ltac:(lia) ltac:(vm_compute; lia))
    as (w' & d & Hrun & Htrace & He & Hc).
  exists w', d. auto.
Defined.

Lemma train_final_write_repeats_last_validation_witness :
  exists w' t ve,
    train 10 Stub.self 1 (Some "ckpt") 5 (Some 1%positive) Stub.world0 = Ok tt w'
    /\ trace w' = trace Stub.world0 ++ t
                  ++ [EvModelEval; EvEval ve;
                      EvSave "ckpt" (model w'); EvSave "ckpt" (model w')].
Proof.
  exact (train_final_write_repeats_last_validation 10 Stub.self 1 "ckpt" 5 1 5 2
           Stub.world0 stub_shuffle_permutes eq_refl ltac:(lia) eq_refl
           ltac:(lia) ltac:(lia) eq_refl ltac:(vm_compute; lia)).
Defined.

Lemma train_step_count_witness :
  exists w' d,
    train 10 Stub.self 1 None (-1) None Stub.world0 = Ok tt w'
    /\ trace w' = trace Stub.world0 ++ d
    /\ count is_optimizer_step d = 15
    /\ count is_forward d = 30.
Proof.
  destruct (train_step_count 10 Stub.self 1 None (-1) None 5 2 Stub.world0
              stub_shuffle_permutes stub_invert_keeps_rows eq_refl eq_refl
              ltac:(lia) ltac:(vm_compute; lia))
    as (w' & d & Hrun & Htrace & Hs & Hf).
  exists w', d. auto.
Defined.

Lemma train_syncs_embeddings_by_class_witness :
  exists w' d,
    train 10 Stub.kelpie 1 None (-1) None Stub.world0 = Ok tt w'
    /\ trace w' = trace Stub.world0 ++ d
    /\ count is_update_embeddings d = count is_optimizer_step d.
Proof.
  exact (train_syncs_embeddings_by_class 10 Stub.kelpie 1 None (-1) None 1 2
           Stub.world0 stub_shuffle_permutes eq_refl eq_refl ltac:(lia)
           ltac:(vm_compute; lia)).
Defined.

Lemma train_modes_are_consistent_witness :
  exists w' d,
    train 10 Stub.self 1 (Some "ckpt") 2 (Some 1%positive) Stub.world0 = Ok tt w'
    /\ trace w' = trace Stub.world0 ++ d
    /\ forall training : bool, well_moded training d = true.
Proof.
  exact (train_modes_are_consistent 10 Stub.self 1 (Some "ckpt") 2
           (Some 1%positive) 5 2 Stub.world0 stub_shuffle_permutes eq_refl
           eq_refl ltac:(lia) ltac:(vm_compute; lia)).
Defined.


Lemma epoch_trains_on_engine_output_witness :
  exists w' (bs : list (ndarray * (ndarray * ndarray))),
    epoch 10 Stub.kelpie 2 1 Stub.world0 = Ok tt w'
    /\ trace w' = trace Stub.world0 ++ [EvShuffle 1; EvModelTrain] ++
         flat_map (fun x =>
           [EvCorrupt x.1 (negative_samples_ratio Stub.kelpie); EvZeroGrad;
            EvForward x.2.1; EvForward x.2.2; EvNewTensor [(-1)%Z];
            EvBackward; EvOptimizerStep]
           ++ match cls Stub.kelpie with
              | PairwiseRanking => []
              | KelpiePairwiseRanking => [EvUpdateEmbeddings]
              end) bs
    /\ Forall (fun x => exists g,
                 x.2 = (corrupt_samples g x.1
                          (negative_samples_ratio Stub.kelpie)).2) bs.
Proof.
  exact (epoch_trains_on_engine_output 10 Stub.kelpie 2 1 Stub.world0
           stub_shuffle_permutes ltac:(lia) ltac:(vm_compute; lia)).
Defined.
